(** * apginstall: the package installation pipeline of [installer.py]

    A shallow embedding of [Package], [Installer] and [InstallerThread]
    (src/installer.py) and the properties of the batch orchestrator, the
    checksum verifier, the backup step, the script runner and the archive
    extractor.

    The program talks to the outside world through the file system, the
    clock, child processes and a few library routines (hashlib, json,
    tarfile, tempfile).  The file system is modelled as a tree, effects as a
    state-and-exception monad over a [world], and the library routines that
    are not part of the repository as the fields of the class [Platform]. *)

From Stdlib Require Import ZArith QArith Qreduction Ascii String List Lia.
From stdpp Require Import base tactics option list gmap strings pretty.

Set Warnings "-register-all".

Local Open Scope string_scope.
Local Open Scope list_scope.
Local Open Scope Z_scope.

(** ** Python's float arithmetic, as far as [run] uses it

    [progress = (i / total) * 100] divides two ints (Python's true division
    returns the binary64 value nearest to the exact quotient), multiplies
    the result by 100 in binary64 and [int()] truncates it.  A binary64
    value is represented by the rational it denotes; the operands of [run]
    are far from the overflow and subnormal ranges, which are left out. *)

Module Float.

(** Nearest integer to [n / d], ties to even ([0 <= n], [0 < d]). *)
Definition round_half_even (n d : Z) : Z :=
  let q := n / d in
  let r := n mod d in
  if 2 * r <? d then q
  else if d <? 2 * r then q + 1
  else if Z.even q then q else q + 1.

(** [x * 2^s] as a fraction of two integers. *)
Definition scaled (p q : positive) (s : Z) : Z * Z :=
  if 0 <=? s then (Zpos p * 2 ^ s, Zpos q) else (Zpos p, Zpos q * 2 ^ (- s)).

(** The binary64 value nearest to [p / q]: the significand has 53 bits. *)
Definition round_pos (p q : positive) : Q :=
  let k := Z.log2 (Zpos p) - Z.log2 (Zpos q) in
  let s0 := 52 - k in
  let s := if fst (scaled p q s0) <? 2 ^ 52 * snd (scaled p q s0)
           then s0 + 1 else s0 in
  let m := round_half_even (fst (scaled p q s)) (snd (scaled p q s)) in
  if 0 <=? s then Qred (m # Z.to_pos (2 ^ s)) else inject_Z (m * 2 ^ (- s)).

Definition round (x : Q) : Q :=
  match Qnum (Qred x) with
  | Z0 => 0%Q
  | Zpos p => round_pos p (Qden (Qred x))
  | Zneg p => Qopp (round_pos p (Qden (Qred x)))
  end.

(** [a / b] on ints. *)
Definition true_div (a b : Z) : Q := round (Qmake a (Z.to_pos b)).

(** [x * y] on floats. *)
Definition mul (x y : Q) : Q := round (Qmult x y).

(** [int(x)]: truncation toward zero. *)
Definition to_int (x : Q) : Z := Z.quot (Qnum x) (Zpos (Qden x)).

End Float.

(** [int((i / total) * 100)], the batch percentage after package [i]. *)
Definition batch_percent (i total : nat) : Z :=
  Float.to_int (Float.mul (Float.true_div (Z.of_nat i) (Z.of_nat total)) (inject_Z 100)).
Arguments batch_percent : simpl never.

(** ** Text: the [str] methods used by [Package.extract] *)

(** [str.isspace] on the code points below 256. *)
Definition is_space (c : ascii) : bool :=
  let n := nat_of_ascii c in
  ((9 <=? n) && (n <=? 13) || (28 <=? n) && (n <=? 32) || (n =? 133) || (n =? 160))%nat.

Fixpoint lstrip (s : string) : string :=
  match s with
  | String c s' => if is_space c then lstrip s' else s
  | EmptyString => EmptyString
  end.

(** [s.strip()] *)
Definition strip (s : string) : string :=
  String.rev (lstrip (String.rev (lstrip s))).

Fixpoint drop_chars (n : nat) (s : string) : string :=
  match n, s with
  | S n', String _ s' => drop_chars n' s'
  | _, _ => s
  end.

(** [s.split(sep, 1)]: [None] stands for the one-element list [[s]] that
    Python returns when [sep] does not occur; otherwise the text before and
    after the leftmost occurrence. *)
Fixpoint split_once (sep s : string) : option (string * string) :=
  if String.prefix sep s then Some (EmptyString, drop_chars (String.length sep) s)
  else match s with
       | EmptyString => None
       | String c s' =>
           match split_once sep s' with
           | Some (a, b) => Some (String c a, b)
           | None => None
           end
       end.

Definition LF : ascii := ascii_of_nat 10.
Definition CR : ascii := ascii_of_nat 13.

(** [for line in f] on a file opened in text mode: universal newlines, every
    line but possibly the last ends in a line feed. *)
Fixpoint iter_lines (s : string) : list string :=
  match s with
  | EmptyString => []
  | String c s' =>
      if Ascii.eqb c LF then String LF EmptyString :: iter_lines s'
      else if Ascii.eqb c CR then
        match s' with
        | String c' s'' =>
            if Ascii.eqb c' LF then String LF EmptyString :: iter_lines s''
            else String LF EmptyString :: iter_lines s'
        | EmptyString => [String LF EmptyString]
        end
      else match iter_lines s' with
           | [] => [String c EmptyString]
           | l :: ls => String c l :: ls
           end
  end.

(** ** Paths ([pathlib.PurePosixPath]) *)

(** An absolute path is the list of its components below the root.  pathlib
    drops empty components and [.] when it builds a path, and keeps [..]:
    that one is left to the operating system, see [resolve] below. *)
Definition path := list string.

Fixpoint split_slash (cur : string) (s : string) : list string :=
  match s with
  | EmptyString => [String.rev cur]
  | String c s' =>
      if Ascii.eqb c "/" then String.rev cur :: split_slash EmptyString s'
      else split_slash (String c cur) s'
  end.

(** The components of a path string; empty components and [.] are dropped,
    as pathlib does, and every other component, [..] included, is kept. *)
Definition parts (s : string) : list string :=
  List.filter (fun c => negb (String.eqb c "" || String.eqb c "."))
              (split_slash EmptyString s).

(** [base / s] *)
Definition path_join (base : path) (s : string) : path :=
  if String.prefix "/" s then parts s else base ++ parts s.

(** [str(p)] *)
Definition path_str (p : path) : string := "/" ++ String.concat "/" p.

(** [p.name] and [p.parent] *)
Definition path_name (p : path) : string := List.last p "".
Definition path_parent (p : path) : path := List.removelast p.

(** ** Dictionaries that keep insertion order *)

Fixpoint assoc {A} (k : string) (d : list (string * A)) : option A :=
  match d with
  | [] => None
  | (k', v) :: d' => if String.eqb k k' then Some v else assoc k d'
  end.

(** [d[k] = v]: the value is replaced in place, a new key goes last. *)
Fixpoint assoc_set {A} (k : string) (v : A) (d : list (string * A)) : list (string * A) :=
  match d with
  | [] => [(k, v)]
  | (k', v') :: d' => if String.eqb k k' then (k, v) :: d' else (k', v') :: assoc_set k v d'
  end.

Definition assoc_del {A} (k : string) (d : list (string * A)) : list (string * A) :=
  List.filter (fun kv => negb (String.eqb k (fst kv))) d.

(** ** JSON values, as [json.load] returns them *)

Inductive json :=
| JNull
| JBool (b : bool)
| JNum (literal : string)
| JStr (s : string)
| JList (items : list json)
| JObj (fields : list (string * json)).

(** ** The file system

    A regular file holds text; a regular file that is a well-formed
    [.tar.xz] archive is represented by the list of its members, each under
    the path it is unpacked to, relative to the destination.  There are no
    symbolic links, and every operation is permitted (the installer runs as
    root). *)

Inductive node :=
| File (text : string)
| Archive (members : list (path * node))
| Dir (entries : list (string * node)).

Definition is_dir (n : node) : bool :=
  match n with Dir _ => true | _ => false end.

Fixpoint fs_get (root : node) (p : path) : option node :=
  match p with
  | [] => Some root
  | c :: p' =>
      match root with
      | Dir es => match assoc c es with
                  | Some child => fs_get child p'
                  | None => None
                  end
      | _ => None
      end
  end.

(** [p.exists()] and [p.is_file()] *)
Definition fs_exists (root : node) (p : path) : bool :=
  match fs_get root p with Some _ => true | None => false end.

Definition fs_is_file (root : node) (p : path) : bool :=
  match fs_get root p with
  | Some (Dir _) | None => false
  | Some _ => true
  end.

(** *** Paths made from the text of a package

    The paths the installer builds from its own names and from what it finds
    on disk hold no [..].  A path joined with text read from a package (an
    entry of [md5sums], the name in [metadata.json]) may: the operating
    system resolves it when the path is used.  Every component, [..]
    included, is looked up in a directory, and [..] leads to the parent of
    that directory, the root being its own parent.  [resolve_from root cur p]
    follows the components [p] from the directory found at [cur]; the last
    component need not exist. *)
Fixpoint resolve_from (root : node) (cur p : path) : option path :=
  match p with
  | [] => Some cur
  | c :: p' =>
      match fs_get root cur with
      | Some (Dir _) =>
          resolve_from root
            (if String.eqb c ".." then List.removelast cur else cur ++ [c]) p'
      | _ => None
      end
  end.

Definition resolve (root : node) (p : path) : option path := resolve_from root [] p.

(** What the operating system finds at [p], if anything. *)
Definition os_lookup (root : node) (p : path) : option node :=
  match resolve root p with
  | Some q => fs_get root q
  | None => None
  end.

(** Writing node [n] at [p]; the parent directory has to exist. *)
Fixpoint fs_put (root : node) (p : path) (n : node) : option node :=
  match p, root with
  | [c], Dir es => Some (Dir (assoc_set c n es))
  | c :: p', Dir es =>
      match assoc c es with
      | Some child =>
          match fs_put child p' n with
          | Some child' => Some (Dir (assoc_set c child' es))
          | None => None
          end
      | None => None
      end
  | _, _ => None
  end.

(** [p.mkdir(parents=True, exist_ok=True)] *)
Fixpoint fs_mkdir_p (root : node) (p : path) : option node :=
  match root with
  | Dir es =>
      match p with
      | [] => Some root
      | c :: p' =>
          match fs_mkdir_p (default (Dir []) (assoc c es)) p' with
          | Some child' => Some (Dir (assoc_set c child' es))
          | None => None
          end
      end
  | _ => None
  end.

(** [shutil.rmtree(p)] on a directory: the directory goes with all it holds. *)
Fixpoint fs_remove (root : node) (p : path) : node :=
  match p, root with
  | [c], Dir es => Dir (assoc_del c es)
  | c :: p', Dir es =>
      match assoc c es with
      | Some child => Dir (assoc_set c (fs_remove child p') es)
      | None => root
      end
  | _, _ => root
  end.

(** The directories at and below [n], each with its entries: a directory
    comes before the directories below it, and these in the order in which
    the directory lists them ([os.scandir]; the order of the entries stands
    for it). *)
Fixpoint rglob_dirs (n : node) : list (path * list (string * node)) :=
  match n with
  | Dir es =>
      ([], es) ::
      (fix walk (l : list (string * node)) : list (path * list (string * node)) :=
         match l with
         | [] => []
         | (c, child) :: l' =>
             List.map (fun d => (c :: fst d, snd d)) (rglob_dirs child) ++ walk l'
         end) es
  | _ => []
  end.

(** [p.rglob("*")]: every path below [p], relative to it, with its node.
    pathlib's recursive wildcard visits the directories as [rglob_dirs]
    lists them and yields all the entries of a directory when it visits it,
    before it enters any of them. *)
Definition rglob (n : node) : list (path * node) :=
  List.flat_map (fun d => List.map (fun e => (fst d ++ [fst e], snd e)) (snd d))
                (rglob_dirs n).

(** ** Exceptions, events and the world *)

Inductive exn_class :=
| ValidationError | PackageError | DependencyError
| ValueError | KeyError | TypeError | AttributeError
| OSError | FileNotFoundError | IsADirectoryError | NotADirectoryError
| ReadError | JSONDecodeError | UnicodeDecodeError.

(** An exception object: its class and [str(e)]. *)
Record exn := Exn { exn_cls : exn_class; exn_str : string }.

(** [isinstance(e, PackageError)]: the classes declared in [installer.py]. *)
Definition is_PackageError (e : exn) : bool :=
  match exn_cls e with
  | ValidationError | PackageError | DependencyError => true
  | _ => false
  end.

(** What the program sends out: the four Qt signals of [Installer], the
    records written with [logging.error], and the child processes started. *)
Inductive event :=
| progress_updated (percent : Z)
| log_message (text : string)
| installation_completed
| installation_failed (text : string)
| logging_error (text : string)
| subprocess_run (argv : list string) (env : gmap string string).

Record world := World {
  fs : node;               (* the file system, from the root directory *)
  events : list event;     (* oldest first *)
  clock : nat;             (* number of clock readings so far *)
}.

Inductive result (A : Type) :=
| Ok (a : A)
| Raise (e : exn).
Arguments Ok {A} a.
Arguments Raise {A} e.

(** Computations that read and change the world and may raise. *)
Definition M (A : Type) : Type := world -> result A * world.

Definition ret {A} (a : A) : M A := fun w => (Ok a, w).
Definition raise {A} (c : exn_class) (msg : string) : M A :=
  fun w => (Raise (Exn c msg), w).
Definition bind {A B} (c : M A) (k : A -> M B) : M B :=
  fun w => match c w with
           | (Ok a, w') => k a w'
           | (Raise e, w') => (Raise e, w')
           end.

Notation "x <- c ;; k" := (bind c (fun x => k))
  (at level 100, c at next level, right associativity).
Notation "c ;; k" := (bind c (fun _ => k))
  (at level 100, right associativity).

Definition emit (e : event) : M unit :=
  fun w => (Ok tt, World (fs w) (events w ++ [e]) (clock w)).

Definition get_fs : M node := fun w => (Ok (fs w), w).
Definition set_fs (root : node) : M unit :=
  fun w => (Ok tt, World root (events w) (clock w)).

(** Lifting a result into a computation. *)
Definition lift {A} (r : result A) : M A := fun w => (r, w).

Definition of_option {A} (o : option A) (c : exn_class) (msg : string) : result A :=
  match o with Some a => Ok a | None => Raise (Exn c msg) end.

(** ** Library routines and the environment of the process *)

Record datetime := DateTime {
  year : nat; month : nat; day : nat; hour : nat; minute : nat; second : nat
}.

Inductive process_result :=
| Exited (returncode : Z) (stderr : string) (fs' : node)
| SpawnError (e : exn).

Class Platform := {
  (* os.environ *)
  os_environ : gmap string string;
  (* hashlib.md5(data).hexdigest() of the bytes of a regular file *)
  md5_hexdigest : node -> string;
  (* json.load; None is JSONDecodeError *)
  json_load : string -> option json;
  (* str() of a JSON value that is not a string *)
  py_repr : json -> string;
  (* tempfile.mkdtemp(prefix="apginstall-"): the name it picks *)
  mkdtemp : node -> option path;
  (* datetime.now() at the n-th reading of the clock *)
  datetime_now : nat -> datetime;
  (* subprocess.run([script], env=env, capture_output=True, text=True):
     exit status, captured standard error and the file system it leaves *)
  run_process : node -> path -> gmap string string -> process_result;
}.

(** [strftime("%Y%m%d_%H%M%S")] *)
Definition pad (width : nat) (n : nat) : string :=
  let s := pretty n in
  String.concat "" (List.repeat "0" (width - String.length s)) ++ s.

Definition strftime (d : datetime) : string :=
  pad 4 (year d) ++ pad 2 (month d) ++ pad 2 (day d) ++ "_" ++
  pad 2 (hour d) ++ pad 2 (minute d) ++ pad 2 (second d).

(** ** Operations on JSON values *)

(** A value inside an f-string. *)
Definition format_value `{Platform} (j : json) : string :=
  match j with JStr s => s | _ => py_repr j end.

Definition is_JStr (k : string) (j : json) : bool :=
  match j with JStr s => String.eqb k s | _ => false end.

(** [k in j] *)
Definition py_contains (k : string) (j : json) : result bool :=
  match j with
  | JObj d => Ok (bool_decide (is_Some (assoc k d)))
  | JList l => Ok (existsb (is_JStr k) l)
  | JStr s => Ok (bool_decide (is_Some (split_once k s)))
  | _ => Raise (Exn TypeError "argument is not iterable")
  end.

(** [j[k]] *)
Definition py_getitem (j : json) (k : string) : result json :=
  match j with
  | JObj d => of_option (assoc k d) KeyError ("'" ++ k ++ "'")
  | JList _ | JStr _ => Raise (Exn TypeError "indices must be integers")
  | _ => Raise (Exn TypeError "object is not subscriptable")
  end.

(** [j.get(k, dflt)] *)
Definition py_get (j : json) (k : string) (dflt : json) : result json :=
  match j with
  | JObj d => Ok (default dflt (assoc k d))
  | _ => Raise (Exn AttributeError "object has no attribute 'get'")
  end.

Fixpoint chars (s : string) : list json :=
  match s with
  | EmptyString => []
  | String c s' => JStr (String c EmptyString) :: chars s'
  end.

(** [for x in j] *)
Definition py_iter (j : json) : result (list json) :=
  match j with
  | JList l => Ok l
  | JStr s => Ok (chars s)
  | JObj d => Ok (List.map (fun kv => JStr (fst kv)) d)
  | _ => Raise (Exn TypeError "object is not iterable")
  end.

(** ** tarfile *)

(** Writing a node below the root, as a computation. *)
Definition write_node (p : path) (n : node) : M unit :=
  fun w => match fs_put (fs w) p n with
           | Some root => (Ok tt, World root (events w) (clock w))
           | None => (Raise (Exn OSError ("cannot write " ++ path_str p)), w)
           end.

(** Creating or truncating a regular file, as [open(p, "wb")] does. *)
Definition write_file (p : path) (n : node) : M unit :=
  fun w => match fs_get (fs w) p with
           | Some (Dir _) => (Raise (Exn IsADirectoryError ("Is a directory: " ++ path_str p)), w)
           | _ => write_node p n w
           end.

Definition make_dirs (p : path) : M unit :=
  fun w => match fs_mkdir_p (fs w) p with
           | Some root => (Ok tt, World root (events w) (clock w))
           | None => (Raise (Exn OSError ("cannot create directory " ++ path_str p)), w)
           end.

(** [tarfile.open(p, "w:xz")]: the file is created or truncated where the
    operating system finds [p]; the archive goes to that very file when it
    is closed, so the place is returned. *)
Definition tarfile_create (p : path) : M path :=
  fun w => match resolve (fs w) p with
           | Some q =>
               match write_file q (Archive []) w with
               | (Ok _, w') => (Ok q, w')
               | (Raise e, w') => (Raise e, w')
               end
           | None =>
               (Raise (Exn FileNotFoundError ("No such file or directory: " ++ path_str p)), w)
           end.

(** [tar.extractall(dest)]: the members are unpacked in order; missing parent
    directories are created. *)
Fixpoint extractall (dest : path) (members : list (path * node)) : M unit :=
  match members with
  | [] => ret tt
  | (rel, n) :: rest =>
      (if is_dir n then make_dirs (dest ++ rel)
       else make_dirs (path_parent (dest ++ rel)) ;; write_file (dest ++ rel) n) ;;
      extractall dest rest
  end.

(** [sorted(names)], carried out on what goes with each name: names are
    compared byte by byte. *)
Fixpoint insert_by_name {A} (x : string * A) (l : list (string * A)) : list (string * A) :=
  match l with
  | [] => [x]
  | y :: l' => if String.leb (fst x) (fst y) then x :: l else y :: insert_by_name x l'
  end.

Fixpoint sort_by_name {A} (l : list (string * A)) : list (string * A) :=
  match l with
  | [] => []
  | x :: l' => insert_by_name x (sort_by_name l')
  end.

(** [tar.add(name, arcname)] on the node found at [name]: a directory is
    added with everything below it ([recursive=True] is the default), its
    entries in the order of [sorted(os.listdir(name))], and the archive
    being written is never added to itself. *)
Fixpoint tar_add (self_name name arcname : path) (n : node) : list (path * node) :=
  if bool_decide (name = self_name) then []
  else match n with
       | Dir es =>
           (arcname, Dir []) ::
           List.concat
             (List.map snd
                (sort_by_name
                   ((fix walk (es : list (string * node))
                       : list (string * list (path * node)) :=
                       match es with
                       | [] => []
                       | (c, child) :: es' =>
                           (c, tar_add self_name (name ++ [c]) (arcname ++ [c]) child)
                             :: walk es'
                       end) es)))
       | _ => [(arcname, n)]
       end.

(** ** class Package *)

Record package := {
  pkg_path : path;
  temp_dir : option path;
  metadata : json;
  md5sums : list (string * string);
}.

(** [Package(path)] *)
Definition Package (p : path) : package :=
  {| pkg_path := p; temp_dir := None; metadata := JObj []; md5sums := [] |}.

Definition set_temp_dir (pkg : package) (t : path) : package :=
  {| pkg_path := pkg_path pkg; temp_dir := Some t;
     metadata := metadata pkg; md5sums := md5sums pkg |}.
Definition set_metadata (pkg : package) (j : json) : package :=
  {| pkg_path := pkg_path pkg; temp_dir := temp_dir pkg;
     metadata := j; md5sums := md5sums pkg |}.
Definition set_md5sums (pkg : package) (d : list (string * string)) : package :=
  {| pkg_path := pkg_path pkg; temp_dir := temp_dir pkg;
     metadata := metadata pkg; md5sums := d |}.

(** [open(p)] followed by reading the whole file as text. *)
Definition read_text (root : node) (p : path) : result string :=
  match fs_get root p with
  | Some (File s) => Ok s
  | Some (Archive _) => Raise (Exn UnicodeDecodeError "invalid start byte")
  | Some (Dir _) => Raise (Exn IsADirectoryError ("Is a directory: " ++ path_str p))
  | None => Raise (Exn FileNotFoundError ("No such file or directory: " ++ path_str p))
  end.

(** [tarfile.open(p, "r:xz")] *)
Definition tarfile_open (root : node) (p : path) : result (list (path * node)) :=
  match fs_get root p with
  | Some (Archive members) => Ok members
  | Some (File _) => Raise (Exn ReadError "not an lzma file")
  | Some (Dir _) => Raise (Exn IsADirectoryError ("Is a directory: " ++ path_str p))
  | None => Raise (Exn FileNotFoundError ("No such file or directory: " ++ path_str p))
  end.

(** The error of [hashsum, path = ...] when the split yields one part. *)
Definition unpack_error : exn :=
  Exn ValueError "not enough values to unpack (expected 2, got 1)".

(** The loop over the lines of [md5sums]; the entries read before a
    malformed line stay in the dictionary. *)
Fixpoint load_md5sums (lines : list string) (d : list (string * string))
  : result unit * list (string * string) :=
  match lines with
  | [] => (Ok tt, d)
  | line :: rest =>
      match split_once "  " (strip line) with
      | Some (hashsum, path) => load_md5sums rest (assoc_set path hashsum d)
      | None => (Raise unpack_error, d)
      end
  end.

Section Installer.
Context `{Platform}.

(** [Package.extract]: the package object changes along the way, so it is
    returned together with the result. *)
Definition extract (pkg : package) (w : world) : result path * package * world :=
  match mkdtemp (fs w) with
  | None => (Raise (Exn OSError "No usable temporary directory"), pkg, w)
  | Some tmp =>
      match write_node tmp (Dir []) w with
      | (Raise e, w1) => (Raise e, pkg, w1)
      | (Ok _, w1) =>
          let pkg1 := set_temp_dir pkg tmp in
          match (members <- lift (tarfile_open (fs w1) (pkg_path pkg1)) ;;
                 extractall tmp members) w1 with
          | (Raise e, w2) => (Raise e, pkg1, w2)
          | (Ok _, w2) =>
              let metadata_path := tmp ++ ["metadata.json"] in
              if negb (fs_exists (fs w2) metadata_path) then
                (Raise (Exn ValidationError "metadata.json not found in package"), pkg1, w2)
              else
                match read_text (fs w2) metadata_path with
                | Raise e => (Raise e, pkg1, w2)
                | Ok text =>
                    match json_load text with
                    | None => (Raise (Exn JSONDecodeError "Expecting value"), pkg1, w2)
                    | Some j =>
                        let pkg2 := set_metadata pkg1 j in
                        let md5sums_path := tmp ++ ["md5sums"] in
                        if fs_exists (fs w2) md5sums_path then
                          match read_text (fs w2) md5sums_path with
                          | Raise e => (Raise e, pkg2, w2)
                          | Ok sums =>
                              let '(r, d) := load_md5sums (iter_lines sums) (md5sums pkg2) in
                              match r with
                              | Raise e => (Raise e, set_md5sums pkg2 d, w2)
                              | Ok _ => (Ok tmp, set_md5sums pkg2 d, w2)
                              end
                          end
                        else (Ok tmp, pkg2, w2)
                    end
                end
          end
      end
  end.

(** [Package.cleanup]: [shutil.rmtree] removes a directory with all it
    holds, and raises on a path that exists and is not a directory. *)
Definition cleanup (pkg : package) : M unit :=
  fun w =>
    match temp_dir pkg with
    | Some tmp =>
        match fs_get (fs w) tmp with
        | Some (Dir _) => (Ok tt, World (fs_remove (fs w) tmp) (events w) (clock w))
        | Some _ => (Raise (Exn NotADirectoryError ("Not a directory: " ++ path_str tmp)), w)
        | None => (Ok tt, w)
        end
    | None => (Ok tt, w)
    end.

(** [Package.__str__] *)
Definition package_str (pkg : package) : result string :=
  match py_get (metadata pkg) "name" (JStr "Unknown") with
  | Raise e => Raise e
  | Ok name =>
      match py_get (metadata pkg) "version" (JStr "Unknown") with
      | Raise e => Raise e
      | Ok version => Ok (format_value name ++ " " ++ format_value version)%string
      end
  end.

(** ** class Installer *)

Definition system_root : path := [].
Definition backup_dir : path := ["var"; "lib"; "nuros"; "backups"].
Definition log_dir : path := ["var"; "lib"; "nuros"; "logs"].
Definition db_file : path := ["var"; "lib"; "nuros"; "packages.db"].

(** [Installer.__init__] *)
Definition Installer_init : M unit :=
  make_dirs backup_dir ;; make_dirs log_dir.

(** [package.temp_dir / ...]: dividing [None] is a TypeError. *)
Definition the_temp_dir (pkg : package) : result path :=
  of_option (temp_dir pkg) TypeError "unsupported operand type(s) for /".

(** The loop of [verify_checksums] over [package.md5sums.items()]:
    [full_path.exists()] and [open(full_path, "rb")] go through the
    operating system, which resolves what [file_path] holds. *)
Fixpoint verify_entries (pkg : package) (entries : list (string * string)) : M unit :=
  match entries with
  | [] => ret tt
  | (file_path, expected_hash) :: rest =>
      tmp <- lift (the_temp_dir pkg) ;;
      root <- get_fs ;;
      let full_path := path_join tmp file_path in
      match os_lookup root full_path with
      | None => raise ValidationError ("File not found: " ++ file_path)
      | Some (Dir _) => raise IsADirectoryError ("Is a directory: " ++ path_str full_path)
      | Some n =>
          if String.eqb (md5_hexdigest n) expected_hash
          then verify_entries pkg rest
          else raise ValidationError ("Checksum mismatch for " ++ file_path)
      end
  end.

Definition verify_checksums (pkg : package) : M bool :=
  match md5sums pkg with
  | [] => ret true
  | _ =>
      emit (log_message "Verifying package checksums...") ;;
      verify_entries pkg (md5sums pkg) ;;
      ret true
  end.

(** The loop of [verify_dependencies]. *)
Fixpoint report_dependencies (deps : list json) : M unit :=
  match deps with
  | [] => ret tt
  | dep :: rest =>
      name <- lift (py_getitem dep "name") ;;
      version <- lift (py_getitem dep "version") ;;
      condition <- lift (py_get dep "condition" (JStr ">=")) ;;
      emit (log_message ("Required: " ++ format_value name ++ " " ++
                         format_value condition ++ " " ++ format_value version)) ;;
      report_dependencies rest
  end.

Definition verify_dependencies (pkg : package) : M bool :=
  declared <- lift (py_contains "dependencies" (metadata pkg)) ;;
  if negb declared then ret true
  else
    emit (log_message "Checking dependencies...") ;;
    deps <- lift (py_getitem (metadata pkg) "dependencies") ;;
    items <- lift (py_iter deps) ;;
    report_dependencies items ;;
    ret true.

(** The members [create_backup] adds: for every regular file [src] below
    [data_dir] whose counterpart [dst] exists below the system root,
    [tar.add(dst, src.relative_to(data_dir))]. *)
Definition backup_members (root : node) (backup_path : path) (payload : list (path * node))
  : list (path * node) :=
  List.flat_map
    (fun src =>
       if is_dir (snd src) then []
       else match fs_get root (system_root ++ fst src) with
            | Some live => tar_add backup_path (system_root ++ fst src) (fst src) live
            | None => []
            end)
    payload.

Definition backup_name (name : json) (timestamp : string) : string :=
  format_value name ++ "_" ++ timestamp ++ ".tar.xz".

(** [Installer.create_backup].  The clock is read and the name looked up
    before anything is logged; the name becomes part of the path of the
    archive, and the operating system resolves what it holds. *)
Definition create_backup (pkg : package) : M unit :=
  fun w =>
    let timestamp := strftime (datetime_now (clock w)) in
    let w0 := World (fs w) (events w) (S (clock w)) in
    match py_getitem (metadata pkg) "name" with
    | Raise e => (Raise e, w0)
    | Ok name =>
        (emit (log_message "Creating backup...") ;;
         backup_path <- tarfile_create (path_join backup_dir (backup_name name timestamp)) ;;
         tmp <- lift (the_temp_dir pkg) ;;
         root <- get_fs ;;
         match fs_get root (tmp ++ ["data"]) with
         | Some data_dir =>
             write_file backup_path (Archive (backup_members root backup_path (rglob data_dir)))
         | None => ret tt
         end) w0
    end.

Definition run_script (script_path : path) (env : option (gmap string string)) : M bool :=
  fun w =>
    if negb (fs_exists (fs w) script_path) then (Ok true, w)
    else
      let script_name := path_name script_path in
      let env0 := default ∅ env in
      let env1 := os_environ ∪ env0 in
      let env2 := <["PACKAGE_ROOT" := path_str (path_parent (path_parent script_path))]> env1 in
      let w1 := World (fs w)
                      (events w ++ [log_message ("Running " ++ script_name ++ "...");
                                    subprocess_run [path_str script_path] env2])
                      (clock w) in
      match run_process (fs w) script_path env2 with
      | SpawnError e => (Raise e, w1)
      | Exited returncode stderr root =>
          let w2 := World root (events w1) (clock w1) in
          if returncode =? 0 then (Ok true, w2)
          else (Raise (Exn PackageError (script_name ++ " failed: " ++ stderr)), w2)
      end.

(** [shutil.copy2(src, dst)]: into [dst] when it is a directory. *)
Definition copy2 (src dst : path) : M unit :=
  fun w =>
    match fs_get (fs w) src with
    | Some (Dir _) => (Raise (Exn IsADirectoryError ("Is a directory: " ++ path_str src)), w)
    | None => (Raise (Exn FileNotFoundError ("No such file or directory: " ++ path_str src)), w)
    | Some n =>
        match fs_get (fs w) dst with
        | Some (Dir _) => write_file (dst ++ [path_name src]) n w
        | _ => write_file dst n w
        end
    end.

Fixpoint copy_loop (source_dir target_dir : path) (found : list (path * node)) : M unit :=
  match found with
  | [] => ret tt
  | (rel, _) :: rest =>
      root <- get_fs ;;
      (if fs_is_file root (source_dir ++ rel)
       then make_dirs (path_parent (target_dir ++ rel)) ;;
            copy2 (source_dir ++ rel) (target_dir ++ rel)
       else ret tt) ;;
      copy_loop source_dir target_dir rest
  end.

(** [Installer.copy_files].  The tree is listed when the loop starts;
    pathlib lists each directory when it reaches it, which gives the same
    files unless a file is copied into the source tree itself. *)
Definition copy_files (source_dir target_dir : path) : M unit :=
  root <- get_fs ;;
  match fs_get root source_dir with
  | None => ret tt
  | Some src =>
      emit (log_message "Copying files...") ;;
      copy_loop source_dir target_dir (rglob src)
  end.

Definition register_package (pkg : package) : M unit := ret tt.

(** The body of the [try] in [install_package] after [package.extract()]. *)
Definition install_steps (pkg : package) : M bool :=
  emit (progress_updated 10) ;;
  verify_checksums pkg ;;
  emit (progress_updated 20) ;;
  verify_dependencies pkg ;;
  emit (progress_updated 30) ;;
  create_backup pkg ;;
  emit (progress_updated 40) ;;
  tmp <- lift (the_temp_dir pkg) ;;
  run_script (tmp ++ ["scripts"; "preinstall"]) None ;;
  emit (progress_updated 50) ;;
  tmp <- lift (the_temp_dir pkg) ;;
  copy_files (tmp ++ ["data"]) system_root ;;
  emit (progress_updated 70) ;;
  tmp <- lift (the_temp_dir pkg) ;;
  run_script (tmp ++ ["scripts"; "postinstall"]) None ;;
  emit (progress_updated 80) ;;
  register_package pkg ;;
  emit (progress_updated 90) ;;
  s <- lift (package_str pkg) ;;
  emit (log_message ("Successfully installed " ++ s)) ;;
  ret true.

(** The [try] block: extraction, then the steps. *)
Definition install_try (package_path : path) (w : world) : result bool * package * world :=
  let w0 := snd (emit (log_message ("Extracting " ++ path_name package_path ++ "...")) w) in
  match extract (Package package_path) w0 with
  | (Raise e, pkg, w1) => (Raise e, pkg, w1)
  | (Ok _, pkg, w1) => let '(r, w2) := install_steps pkg w1 in (r, pkg, w2)
  end.

(** The [except Exception as e] block: log, then re-raise. *)
Definition install_except (pkg : package) (e : exn) : M bool :=
  s <- lift (package_str pkg) ;;
  emit (log_message ("Failed to install " ++ s ++ ": " ++ exn_str e)) ;;
  lift (Raise e).

(** [Installer.install_package], with the package object as it is when the
    method is left. *)
Definition install_package_obj (package_path : path) (w : world)
  : result bool * package * world :=
  let '(r, pkg, w1) := install_try package_path w in
  let '(r', w2) := match r with
                   | Ok b => (Ok b, w1)
                   | Raise e => install_except pkg e w1
                   end in
  (* finally *)
  match cleanup pkg w2 with
  | (Raise e, w3) => (Raise e, pkg, w3)
  | (Ok _, w3) => (r', pkg, w3)
  end.

Definition install_package (package_path : path) : M bool :=
  fun w => let '(r, _, w') := install_package_obj package_path w in (r, w').

(** ** class InstallerThread *)

(** One turn of the loop of [run]: package number [i] of [total]. *)
Definition run_one (total i : nat) (package_path : path) (success : nat) : M nat :=
  fun w =>
    let '(r, w1) := install_package package_path w in
    let '(success', w2) :=
      match r with
      | Ok true => (S success, w1)
      | Ok false => (success, w1)
      | Raise e =>
          (success,
           snd (emit (logging_error ("Failed to install " ++ path_str package_path ++
                                     ": " ++ exn_str e)) w1))
      end in
    (emit (progress_updated (batch_percent i total)) ;; ret success') w2.

Fixpoint run_loop (total i : nat) (packages : list path) (success : nat) : M nat :=
  match packages with
  | [] => ret success
  | package_path :: rest =>
      success' <- run_one total i package_path success ;;
      run_loop total (S i) rest success'
  end.

Definition try_except {A} (body : M A) (handler : exn -> M A) : M A :=
  fun w => match body w with
           | (Raise e, w') => handler e w'
           | ok => ok
           end.

(** [InstallerThread.run] *)
Definition run (packages : list path) : M unit :=
  let total := List.length packages in
  try_except
    (success <- run_loop total 1 packages 0%nat ;;
     if (success =? total)%nat then emit installation_completed
     else emit (installation_failed
                  ("Failed to install " ++ pretty (total - success)%nat ++ " package(s)")))
    (fun e =>
       emit (logging_error ("Installation thread error: " ++ exn_str e)) ;;
       emit (installation_failed (exn_str e))).

End Installer.

(** ** Entries of the checksum manifest *)

Section Entries.
Context `{Platform}.





End Entries.

(** ** Observations on a run *)

(** The percentages delivered to the progress sink, in order. *)
Definition percentages (l : list event) : list Z :=
  omap (fun e => match e with progress_updated n => Some n | _ => None end) l.

(** The batch-level signals, in order. *)
Definition batch_signals (l : list event) : list event :=
  List.filter (fun e => match e with
                        | installation_completed | installation_failed _ => true
                        | _ => false
                        end) l.

(** The failure records written with [logging.error], in order. *)
Definition failure_details (l : list event) : list string :=
  omap (fun e => match e with logging_error s => Some s | _ => None end) l.

(** A sequence of percentages that never goes down, and one that goes up
    at every step. *)
Fixpoint never_regresses (l : list Z) : bool :=
  match l with
  | a :: (b :: _) as rest => (a <=? b) && never_regresses rest
  | _ => true
  end.

Fixpoint strictly_increases (l : list Z) : bool :=
  match l with
  | a :: (b :: _) as rest => (a <? b) && strictly_increases rest
  | _ => true
  end.

(** The events [Installer] itself emits while it installs one package. *)
Definition installer_event (e : event) : Prop :=
  match e with
  | progress_updated _ | log_message _ | subprocess_run _ _ => True
  | _ => False
  end.

(** [traces c l]: whatever [c] does, it only appends installer events, and
    the percentages among them are [l] when [c] returns and a prefix of [l]
    when it raises. *)
Definition traces {A} (c : M A) (l : list Z) : Prop :=
  forall w r w',
    c w = (r, w') ->
    exists new,
      events w' = events w ++ new /\
      Forall installer_event new /\
      match r with
      | Ok _ => percentages new = l
      | Raise _ => percentages new `prefix_of` l
      end.

Definition is_failure {A} (r : result A) : bool :=
  match r with Raise _ => true | Ok _ => false end.

Section Batch.
Context `{Platform}.

(** The packages of a batch with the outcome of [install_package] on each,
    in the world the loop of [run] has reached when its turn comes. *)
Fixpoint attempts (total i : nat) (packages : list path) (w : world)
  : list (path * result bool) :=
  match packages with
  | [] => []
  | package_path :: rest =>
      (package_path, fst (install_package package_path w))
        :: attempts total (S i) rest (snd (run_one total i package_path 0%nat w))
  end.

Definition successes (l : list (path * result bool)) : nat :=
  List.length (List.filter (fun a => negb (is_failure (snd a))) l).

Definition failures (l : list (path * result bool)) : nat :=
  List.length (List.filter (fun a => is_failure (snd a)) l).

(** K: how many packages of the batch fail. *)
Definition failed (packages : list path) (w : world) : nat :=
  failures (attempts (List.length packages) 1 packages w).

(** The record [run] writes for a failed package. *)
Definition failure_record (a : path * result bool) : option string :=
  match snd a with
  | Raise e => Some ("Failed to install " ++ path_str (fst a) ++ ": " ++ exn_str e)%string
  | Ok _ => None
  end.

Definition recorded (p : path) (r : result bool) : list string :=
  match failure_record (p, r) with Some s => [s] | None => [] end.

(** The counter of [run] after a package with outcome [r]. *)
Definition counted (r : result bool) (success : nat) : nat :=
  if is_failure r then success else S success.

(** The events of [run] that come after those of [w]. *)
Definition emitted_by {A} (c : M A) (w : world) : list event :=
  List.skipn (List.length (events w)) (events (snd (c w))).

End Batch.

(** ** A small platform and file system to run the definitions on *)

Module Demo.

#[local] Instance platform : Platform := {|
  os_environ := {["PATH" := "/usr/bin"]};
  md5_hexdigest n := match n with File s => s | _ => "" end;
  json_load s :=
    if String.eqb s "" then None
    else Some (JObj [("name", JStr s); ("version", JStr "1.0")]);
  py_repr _ := "?";
  mkdtemp _ := Some ["tmp"; "apginstall-0"];
  datetime_now n := DateTime 2025 1 21 13 21 (10 + n);
  run_process root script env :=
    match fs_get root script with
    | Some (File text) =>
        if String.eqb text "exit 1" then Exited 1 "boom" root else Exited 0 "" root
    | _ => SpawnError (Exn OSError "Permission denied")
    end
|}.

(** [demo-1.0.apg] of the specification's example scenario. *)
Definition demo_apg : node :=
  Archive [(["metadata.json"], File "demo");
           (["data"; "etc"; "demo.conf"], File "x=1")].

(** A package whose [md5sums] ends in a blank line. *)
Definition blank_line_apg : node :=
  Archive [(["metadata.json"], File "blank");
           (["md5sums"], File (String.append "abc  data/f" (String LF (String LF ""))));
           (["data"; "f"], File "abc")].

(** A package without [metadata.json]. *)
Definition no_manifest_apg : node :=
  Archive [(["data"; "f"], File "abc")].

(** A package whose postinstall script fails. *)
Definition failing_script_apg : node :=
  Archive [(["metadata.json"], File "script");
           (["scripts"; "postinstall"], File "exit 1")].

(** A package whose manifest lists the directory [data] before a file
    with a wrong checksum. *)
Definition dir_entry_apg : node :=
  Archive [(["metadata.json"], File "direntry");
           (["md5sums"], File (String.append "abc  data" (String LF "fff  data/f")));
           (["data"; "f"], File "abc")].

(** A package that ships a regular file [opt]. *)
Definition opt_apg : node :=
  Archive [(["metadata.json"], File "optpkg");
           (["data"; "opt"], File "new")].

Definition root : node :=
  Dir [("tmp", Dir []);
       ("var", Dir [("lib", Dir [("nuros", Dir [("backups", Dir []); ("logs", Dir [])])])]);
       ("opt", Dir [("keep", File "precious")]);
       ("root", Dir [("demo-1.0.apg", demo_apg);
                     ("blank.apg", blank_line_apg);
                     ("nomanifest.apg", no_manifest_apg);
                     ("script.apg", failing_script_apg);
                     ("direntry.apg", dir_entry_apg);
                     ("opt.apg", opt_apg)])].

Definition world0 : world := World root [] 0.

(** A world in which a workspace with a failing postinstall script has
    been unpacked. *)
Definition staged_script : path := ["tmp"; "apginstall-0"; "scripts"; "postinstall"].
Definition staged_world : world :=
  World (Dir [("tmp", Dir [("apginstall-0",
                            Dir [("metadata.json", File "script");
                                 ("scripts", Dir [("postinstall", File "exit 1")])])])])
        [] 0.


Definition opt_extracted : result path * package * world :=
  Eval vm_compute in
    extract (Package ["root"; "opt.apg"])
            (snd (emit (log_message "Extracting opt.apg...") world0)).
Definition opt_pkg : package := snd (fst opt_extracted).
Definition opt_world : world := snd opt_extracted.

Definition demo_path : path := ["root"; "demo-1.0.apg"].
Definition blank_path : path := ["root"; "blank.apg"].
Definition no_manifest_path : path := ["root"; "nomanifest.apg"].
Definition script_path : path := ["root"; "script.apg"].
Definition opt_path : path := ["root"; "opt.apg"].

(** The package object and the world once [demo-1.0.apg] has been
    extracted. *)
Definition demo_extracted : result path * package * world :=
  Eval vm_compute in
    extract (Package ["root"; "demo-1.0.apg"])
            (snd (emit (log_message "Extracting demo-1.0.apg...") world0)).
Definition demo_world : world := snd demo_extracted.

(** The same platform with a [json.load] that reads every manifest as an
    empty array. *)
Definition array_platform : Platform := {|
  os_environ := @os_environ platform;
  md5_hexdigest := @md5_hexdigest platform;
  json_load _ := Some (JList []);
  py_repr := @py_repr platform;
  mkdtemp := @mkdtemp platform;
  datetime_now := @datetime_now platform;
  run_process := @run_process platform
|}.

(** A package whose manifest reaches [data/f] through [other/..], and one
    that tries to through a directory that is not there. *)
Definition dotdot_apg : node :=
  Archive [(["metadata.json"], File "dotdot");
           (["md5sums"], File "abc  other/../data/f");
           (["other"], Dir []);
           (["data"; "f"], File "abc")].

Definition dangling_apg : node :=
  Archive [(["metadata.json"], File "dangling");
           (["md5sums"], File "abc  nowhere/../data/f");
           (["data"; "f"], File "abc")].

(** A package with a blank line in [md5sums] and no [metadata.json]. *)
Definition bare_apg : node :=
  Archive [(["md5sums"], File (String.append "abc  data/f" (String LF (String LF ""))));
           (["data"; "f"], File "abc")].

Definition shelf : world :=
  World (Dir [("tmp", Dir []);
              ("root", Dir [("dotdot.apg", dotdot_apg);
                            ("dangling.apg", dangling_apg);
                            ("bare.apg", bare_apg)])])
        [] 0.

Definition dangling_path : path := ["root"; "dangling.apg"].
Definition bare_path : path := ["root"; "bare.apg"].


Definition dangling_extracted : result path * package * world :=
  Eval vm_compute in extract (Package dangling_path) shelf.
Definition dangling_pkg : package := snd (fst dangling_extracted).
Definition dangling_world : world := snd dangling_extracted.


End Demo.

(** ** Declared dependencies *)

Section Dependencies.
Context `{Platform}.

(** A dependency that [verify_dependencies] can report: an object that has
    a [name] and a [version]. *)
Definition reportable (dep : json) : bool :=
  match dep with
  | JObj f => bool_decide (is_Some (assoc "name" f)) &&
              bool_decide (is_Some (assoc "version" f))
  | _ => false
  end.

(** The line logged for it; the condition defaults to [>=]. *)
Definition dependency_line (dep : json) : string :=
  match dep with
  | JObj f =>
      "Required: " ++ format_value (default JNull (assoc "name" f)) ++ " " ++
      format_value (default (JStr ">=") (assoc "condition" f)) ++ " " ++
      format_value (default JNull (assoc "version" f))
  | _ => ""
  end.

(** The errors of the lookups on a manifest of the wrong shape. *)
Definition lookup_error (e : exn) : bool :=
  match exn_cls e with
  | KeyError | TypeError | AttributeError => true
  | _ => false
  end.

(** A manifest whose dependencies [verify_dependencies] can report: an
    object that declares none, or declares a list of reportable ones. *)
Definition well_declared (j : json) : bool :=
  match j with
  | JObj d =>
      match assoc "dependencies" d with
      | None => true
      | Some (JList deps) => forallb reportable deps
      | Some _ => false
      end
  | _ => false
  end.

End Dependencies.

(** ** What a change of the file system keeps *)

(** Every path of [root] is still there in [root'], a directory where there
    was a directory and a regular file where there was one. *)
Definition keeps (root root' : node) : Prop :=
  forall q n, fs_get root q = Some n ->
              exists n', fs_get root' q = Some n' /\ is_dir n' = is_dir n.

(** A computation that, whether it returns or raises, deletes no path and
    turns no file into a directory or back. *)
Definition keeping {A} (c : M A) : Prop :=
  forall w, keeps (fs w) (fs (snd (c w))).

(** A computation that never changes the file system. *)
Definition reads_only {A} (c : M A) : Prop :=
  forall w, fs (snd (c w)) = fs w.

(** A computation that always raises, and leaves the file system as it was. *)
Definition fails_quietly {A} (c : M A) : Prop :=
  forall w, fs (snd (c w)) = fs w /\ is_failure (fst (c w)) = true.


(** ** The workspace and the scripts *)



Section Spare.
Context `{Platform}.


End Spare.

(** ** main.py: the packages named on the command line *)

Section Main.
(* [path.suffix] of pathlib *)
Variable path_suffix : path -> string.

(** Why [validate_packages] skips a path, if it does: the warning it logs. *)
Definition rejection (root : node) (p : path) : option string :=
  if negb (fs_exists root p) then Some ("Package not found: " ++ path_str p)%string
  else if negb (fs_is_file root p) then Some ("Not a file: " ++ path_str p)%string
  else if negb (String.eqb (path_suffix p) ".apg")
       then Some ("Not an APG package: " ++ path_str p)%string
  else None.

(** A path that names a regular file with the suffix [.apg]. *)
Definition acceptable (root : node) (p : path) : bool :=
  fs_is_file root p && String.eqb (path_suffix p) ".apg".

(** [validate_packages]: the valid paths, and the warnings written with
    [logging.warning], both in order. *)
Fixpoint validate_packages (root : node) (paths : list path) : list path * list string :=
  match paths with
  | [] => ([], [])
  | p :: rest =>
      let '(valid_packages, warnings) := validate_packages root rest in
      match rejection root p with
      | Some warning => (valid_packages, warning :: warnings)
      | None => (p :: valid_packages, warnings)
      end
  end.

End Main.

(** ** Deployment of a payload

    [r0] is the file system when [copy_files] starts, [root] the one it has
    reached. *)

(** The source tree is as it was, and no payload file has a directory at
    its place below the target. *)
Definition stable (r0 root : node) (source target : path) : Prop :=
  (forall x, fs_get root (source ++ x) = fs_get r0 (source ++ x)) /\
  (forall rel es, fs_is_file r0 (source ++ rel) = true ->
                  fs_get root (target ++ rel) <> Some (Dir es)).

(** The payload file [rel] is at its place below the target, as in the source. *)
Definition deployed (r0 root : node) (source target rel : path) : Prop :=
  fs_get root (target ++ rel) = fs_get r0 (source ++ rel).

(** * Properties *)

(** ** The monad *)

Lemma bind_Ok {A B} (c : M A) (k : A -> M B) w b w' :
  bind c k w = (Ok b, w') ->
  exists a w1, c w = (Ok a, w1) /\ k a w1 = (Ok b, w').
Proof.
  unfold bind. destruct (c w) as [[a | e] w1]; intros Hk.
  - exists a, w1. auto.
  - discriminate.
Qed.

Lemma bind_Raise {A B} (c : M A) (k : A -> M B) w e w' :
  bind c k w = (Raise e, w') ->
  c w = (Raise e, w') \/ exists a w1, c w = (Ok a, w1) /\ k a w1 = (Raise e, w').
Proof.
  unfold bind. destruct (c w) as [[a | e1] w1]; intros Hk.
  - right. exists a, w1. auto.
  - left. congruence.
Qed.

(** ** Dictionaries *)

Lemma assoc_set_eq {A} k (v : A) d : assoc k (assoc_set k v d) = Some v.
Proof.
  induction d as [| [k' v'] d IH]; simpl.
  - now rewrite String.eqb_refl.
  - destruct (String.eqb k k') eqn:E; simpl; rewrite ?String.eqb_refl, ?E; auto.
Qed.

Lemma assoc_set_ne {A} k k' (v : A) d :
  k <> k' -> assoc k' (assoc_set k v d) = assoc k' d.
Proof.
  intros Hne. induction d as [| [k0 v0] d IH]; simpl.
  - destruct (String.eqb k' k) eqn:E; [apply String.eqb_eq in E; congruence | reflexivity].
  - destruct (String.eqb k k0) eqn:E; simpl.
    + apply String.eqb_eq in E. subst k0.
      destruct (String.eqb k' k) eqn:E'; [apply String.eqb_eq in E'; congruence | reflexivity].
    + now rewrite IH.
Qed.

Lemma assoc_del_eq {A} k (d : list (string * A)) : assoc k (assoc_del k d) = None.
Proof.
  unfold assoc_del. induction d as [| [k' v'] d IH]; simpl; [reflexivity |].
  destruct (String.eqb k k') eqn:E; simpl; [exact IH | now rewrite E].
Qed.

(** ** The file system *)

Lemma fs_get_cons es c p :
  fs_get (Dir es) (c :: p) =
  match assoc c es with Some child => fs_get child p | None => None end.
Proof. reflexivity. Qed.

Lemma fs_put_cons es c c' p n :
  fs_put (Dir es) (c :: c' :: p) n =
  match assoc c es with
  | Some child =>
      match fs_put child (c' :: p) n with
      | Some child' => Some (Dir (assoc_set c child' es))
      | None => None
      end
  | None => None
  end.
Proof. reflexivity. Qed.

Lemma fs_remove_cons es c c' p :
  fs_remove (Dir es) (c :: c' :: p) =
  match assoc c es with
  | Some child => Dir (assoc_set c (fs_remove child (c' :: p)) es)
  | None => Dir es
  end.
Proof. reflexivity. Qed.

(** Once removed, a path is gone. *)
Lemma fs_get_remove root c p : fs_get (fs_remove root (c :: p)) (c :: p) = None.
Proof.
  revert root c. induction p as [| c' p IH]; intros root c.
  - destruct root; simpl; auto. now rewrite assoc_del_eq.
  - destruct root as [t | ms | es]; try reflexivity.
    rewrite fs_remove_cons.
    destruct (assoc c es) as [child |] eqn:E.
    + rewrite fs_get_cons, assoc_set_eq. apply IH.
    + rewrite fs_get_cons. now rewrite E.
Qed.

Lemma fs_put_root root n : fs_put root [] n = None.
Proof. destruct root; reflexivity. Qed.

(** What was written at [p] is found below [p]. *)
Lemma fs_get_put root p n root' q :
  fs_put root p n = Some root' -> fs_get root' (p ++ q) = fs_get n q.
Proof.
  revert root root'. induction p as [| c p IH]; intros root root' Hput.
  - now rewrite fs_put_root in Hput.
  - destruct root as [t | ms | es]; try (destruct p; discriminate Hput).
    destruct p as [| c' p].
    + injection Hput as <-. simpl. now rewrite assoc_set_eq.
    + rewrite fs_put_cons in Hput.
      destruct (assoc c es) as [child |]; [| discriminate].
      destruct (fs_put child (c' :: p) n) as [child' |] eqn:E; [| discriminate].
      injection Hput as <-.
      rewrite <- app_comm_cons, fs_get_cons, assoc_set_eq. eapply IH; exact E.
Qed.

(** Writing at [p] creates nothing at a path [q] that neither leads to [p]
    nor lies below it. *)
Lemma fs_put_absent root p n root' q :
  fs_put root p n = Some root' ->
  fs_get root q = None -> ~ q `prefix_of` p -> ~ p `prefix_of` q ->
  fs_get root' q = None.
Proof.
  revert root root' q.
  induction p as [| c p IH]; intros root root' q Hput Hq Hpre Hpre'.
  - now rewrite fs_put_root in Hput.
  - destruct q as [| d q]; [discriminate |].
    destruct root as [t | ms | es]; try (destruct p; discriminate Hput).
    rewrite fs_get_cons in Hq.
    destruct (String.eqb_spec c d) as [-> | Hne].
    + destruct p as [| c' p].
      * exfalso. apply Hpre'. now exists q.
      * rewrite fs_put_cons in Hput.
        destruct (assoc d es) as [child |]; [| discriminate].
        destruct (fs_put child (c' :: p) n) as [child' |] eqn:E; [| discriminate].
        injection Hput as <-. rewrite fs_get_cons, assoc_set_eq.
        eapply IH; eauto.
        -- intros [k Hk]. apply Hpre. exists k. simpl. now rewrite Hk.
        -- intros [k Hk]. apply Hpre'. exists k. simpl. now rewrite Hk.
    + assert (Hroot' : exists child', root' = Dir (assoc_set c child' es)).
      { destruct p as [| c' p].
        - injection Hput as <-. eauto.
        - rewrite fs_put_cons in Hput.
          destruct (assoc c es) as [child |]; [| discriminate].
          destruct (fs_put child (c' :: p) n); [| discriminate].
          injection Hput as <-. eauto. }
      destruct Hroot' as [child' ->]. rewrite fs_get_cons. now rewrite assoc_set_ne.
Qed.

Lemma fs_mkdir_p_cons es c p :
  fs_mkdir_p (Dir es) (c :: p) =
  match fs_mkdir_p (default (Dir []) (assoc c es)) p with
  | Some child' => Some (Dir (assoc_set c child' es))
  | None => None
  end.
Proof. reflexivity. Qed.

Lemma fs_mkdir_p_absent root p root' q :
  fs_mkdir_p root p = Some root' ->
  fs_get root q = None -> ~ q `prefix_of` p -> fs_get root' q = None.
Proof.
  revert root root' q. induction p as [| c p IH]; intros root root' q Hmk Hq Hpre.
  - destruct root; simpl in Hmk; try discriminate. now injection Hmk as <-.
  - destruct q as [| d q]; [discriminate |].
    destruct root as [t | ms | es]; try discriminate.
    rewrite fs_mkdir_p_cons in Hmk. rewrite fs_get_cons in Hq.
    destruct (fs_mkdir_p (default (Dir []) (assoc c es)) p) as [child' |] eqn:E;
      [| discriminate].
    injection Hmk as <-. rewrite fs_get_cons.
    destruct (String.eqb_spec c d) as [-> | Hne].
    + rewrite assoc_set_eq. eapply IH; eauto.
      * destruct (assoc d es); simpl; [exact Hq |].
        destruct q; [| reflexivity]. exfalso. apply Hpre. now exists p.
      * intros [k Hk]. apply Hpre. exists k. simpl. now rewrite Hk.
    + now rewrite assoc_set_ne.
Qed.

Lemma fs_get_app root a b :
  fs_get root (a ++ b) = match fs_get root a with Some n => fs_get n b | None => None end.
Proof.
  revert root. induction a as [| c a IH]; intros root; [reflexivity |].
  rewrite <- app_comm_cons. destruct root as [t | ms | es]; try reflexivity.
  rewrite !fs_get_cons. destruct (assoc c es); [apply IH | reflexivity].
Qed.

Lemma fs_get_below_file n b : is_dir n = false -> b <> [] -> fs_get n b = None.
Proof. intros Hn Hb. destruct b; [contradiction |]. now destruct n. Qed.

Lemma fs_get_prefix_dir root a b n :
  fs_get root (a ++ b) = Some n -> b <> [] -> exists es, fs_get root a = Some (Dir es).
Proof.
  rewrite fs_get_app. intros Hg Hb. destruct (fs_get root a) as [[t | ms | es] |];
    try discriminate; eauto; destruct b; try contradiction; discriminate.
Qed.

Lemma is_file_get root p :
  fs_is_file root p = true <-> exists n, fs_get root p = Some n /\ is_dir n = false.
Proof.
  unfold fs_is_file. destruct (fs_get root p) as [[t | ms | es] |]; split.
  - intros _. eexists. split; reflexivity.
  - reflexivity.
  - intros _. eexists. split; reflexivity.
  - reflexivity.
  - discriminate.
  - intros (n & [= <-] & Hd). discriminate.
  - discriminate.
  - intros (n & Hn & _). discriminate.
Qed.



Lemma assoc_In {A} k (v : A) d : assoc k d = Some v -> In (k, v) d.
Proof.
  induction d as [| [k' v'] d IH]; [discriminate |]. simpl.
  destruct (String.eqb_spec k k') as [<- | Hne]; [intros [= ->]; now left | auto].
Qed.

(** Every directory found at or below [src] is visited. *)
Lemma rglob_dirs_lists d : forall src es,
  fs_get src d = Some (Dir es) -> In (d, es) (rglob_dirs src).
Proof.
  induction d as [| c d IH]; intros src es Hg.
  - injection Hg as ->. now left.
  - destruct src as [t | ms | es0]; try discriminate.
    rewrite fs_get_cons in Hg. cbn [rglob_dirs]. right.
    induction es0 as [| [c0 child] es0 IHes]; [discriminate |].
    simpl in Hg. apply in_or_app.
    destruct (String.eqb_spec c c0) as [<- | Hc].
    + left. apply in_map_iff. exists (d, es). split; [reflexivity | now apply IH].
    + right. now apply IHes.
Qed.

(** Everything found below a directory is listed by [rglob]. *)
Lemma rglob_lists rel : forall src n,
  rel <> [] -> fs_get src rel = Some n -> In (rel, n) (rglob src).
Proof.
  intros src n Hne Hg.
  destruct (exists_last Hne) as (d & c & ->).
  rewrite fs_get_app in Hg.
  destruct (fs_get src d) as [[t | ms | es] |] eqn:Ed; try discriminate Hg.
  rewrite fs_get_cons in Hg.
  destruct (assoc c es) as [child |] eqn:Ec; [| discriminate].
  simpl in Hg. injection Hg as <-.
  unfold rglob. apply in_flat_map. exists (d, es).
  split; [now apply rglob_dirs_lists |].
  cbn [fst snd]. apply in_map_iff. exists (c, child).
  split; [reflexivity | now apply assoc_In].
Qed.

(** The order in which a small tree is listed and archived. *)
Example rglob_order :
  List.map fst
    (rglob (Dir [("d1", Dir [("d2", Dir [("y", File "")]); ("x", File "")]);
                 ("f", File ""); ("g", File "")]))
  = [["d1"]; ["f"]; ["g"]; ["d1"; "d2"]; ["d1"; "x"]; ["d1"; "d2"; "y"]].
Proof. reflexivity. Qed.

Example tar_add_order :
  List.map fst
    (tar_add ["out"] ["zz"] ["zz"]
       (Dir [("b", File ""); ("t", File ""); ("sub", Dir [("c", File "")]);
             ("a", File "")]))
  = [["zz"]; ["zz"; "a"]; ["zz"; "b"]; ["zz"; "sub"]; ["zz"; "sub"; "c"]; ["zz"; "t"]].
Proof. vm_compute. reflexivity. Qed.

(** How the operating system resolves [..]: through a directory that
    exists, never through a file or a name that is not there, and not above
    the root. *)
Example resolve_examples :
  let root := Dir [("ws", Dir [("data", Dir [("f", File "abc")]);
                               ("other", Dir []); ("file", File "")])] in
  os_lookup root ["ws"; "other"; ".."; "data"; "f"] = Some (File "abc") /\
  os_lookup root ["ws"; "nowhere"; ".."; "data"; "f"] = None /\
  os_lookup root ["ws"; "file"; ".."; "data"; "f"] = None /\
  os_lookup root [".."; ".."; "ws"; "data"; "f"] = Some (File "abc") /\
  resolve root ["ws"; "other"; ".."; ".."; "new.tar.xz"] = Some ["new.tar.xz"].
Proof. repeat split; vm_compute; reflexivity. Qed.

(** ** The batch percentage *)

(** After the last package the percentage is 100, whatever the size of the
    batch: [total / total] is exactly 1.0. *)
Lemma batch_percent_last (n : nat) : (0 < n)%nat -> batch_percent n n = 100.
Proof.
  intros Hn. unfold batch_percent, Float.true_div.
  assert (E : Qred (Z.of_nat n # Z.to_pos (Z.of_nat n)) = Qred 1).
  { apply Qred_complete. unfold Qeq. simpl. rewrite Z2Pos.id by lia. lia. }
  unfold Float.round at 1. rewrite E. vm_compute. reflexivity.
Qed.

(** ** What the computations emit *)

Lemma percentages_app l1 l2 : percentages (l1 ++ l2) = percentages l1 ++ percentages l2.
Proof. apply omap_app. Qed.

Lemma traces_ret {A} (a : A) : traces (ret a) [].
Proof.
  intros w r w' [= <- <-]. exists []. rewrite app_nil_r. repeat split; auto.
Qed.

Lemma traces_lift {A} (r : result A) : traces (lift r) [].
Proof.
  intros w r' w' [= <- <-]. exists []. rewrite app_nil_r. repeat split; auto.
  now destruct r.
Qed.

Lemma traces_raise {A} c msg : traces (@raise A c msg) [].
Proof. apply (traces_lift (Raise (Exn c msg))). Qed.

Lemma traces_get_fs : traces get_fs [].
Proof.
  intros w r w' [= <- <-]. exists []. rewrite app_nil_r. repeat split; auto.
Qed.

Lemma traces_progress n : traces (emit (progress_updated n)) [n].
Proof.
  intros w r w' [= <- <-]. exists [progress_updated n]. repeat split; auto.
  repeat constructor.
Qed.

Lemma traces_log s : traces (emit (log_message s)) [].
Proof.
  intros w r w' [= <- <-]. exists [log_message s]. repeat split; auto.
  repeat constructor.
Qed.

(** A computation that leaves the events alone. *)
Lemma traces_silent {A} (c : M A) :
  (forall w, events (snd (c w)) = events w) -> traces c [].
Proof.
  intros Hc w r w' E. exists []. rewrite app_nil_r.
  specialize (Hc w). rewrite E in Hc. repeat split; auto.
  now destruct r.
Qed.

Lemma traces_bind {A B} (c : M A) (k : A -> M B) l1 l2 l :
  traces c l1 -> (forall a, traces (k a) l2) -> l = l1 ++ l2 ->
  traces (bind c k) l.
Proof.
  intros Hc Hk -> w r w'. unfold bind.
  destruct (c w) as [[a | e] w1] eqn:E.
  - intros Ek. destruct (Hc _ _ _ E) as (n1 & E1 & F1 & P1).
    destruct (Hk a _ _ _ Ek) as (n2 & E2 & F2 & P2).
    exists (n1 ++ n2). rewrite E2, E1, app_assoc. split; [reflexivity |].
    split; [now apply Forall_app |].
    rewrite percentages_app, P1. destruct r.
    + now rewrite P2.
    + now apply prefix_app.
  - intros [= <- <-]. destruct (Hc _ _ _ E) as (n1 & E1 & F1 & P1).
    exists n1. repeat split; auto. now apply prefix_app_r.
Qed.

Lemma write_node_events p n w : events (snd (write_node p n w)) = events w.
Proof. unfold write_node. now destruct (fs_put _ _ _). Qed.

Lemma write_file_events p n w : events (snd (write_file p n w)) = events w.
Proof.
  unfold write_file.
  destruct (fs_get _ _) as [[| |] |]; try reflexivity; apply write_node_events.
Qed.

Lemma make_dirs_events p w : events (snd (make_dirs p w)) = events w.
Proof. unfold make_dirs. now destruct (fs_mkdir_p _ _). Qed.

Lemma bind_events {A B} (c : M A) (k : A -> M B) w :
  (forall w, events (snd (c w)) = events w) ->
  (forall a w, events (snd (k a w)) = events w) ->
  events (snd (bind c k w)) = events w.
Proof.
  intros Hc Hk. unfold bind. specialize (Hc w).
  destruct (c w) as [[a | e] w1]; simpl in *; [| exact Hc].
  now rewrite Hk.
Qed.

Lemma extractall_events dest members w :
  events (snd (extractall dest members w)) = events w.
Proof.
  revert w. induction members as [| [rel n] rest IH]; intros w; [reflexivity |].
  simpl. apply bind_events; [| intros _; exact IH].
  intros w0. destruct (is_dir n).
  - apply make_dirs_events.
  - apply bind_events; [apply make_dirs_events | intros _; apply write_file_events].
Qed.

Lemma tarfile_create_events p w : events (snd (tarfile_create p w)) = events w.
Proof.
  unfold tarfile_create. destruct (resolve (fs w) p) as [q |]; [| reflexivity].
  pose proof (write_file_events q (Archive []) w) as E.
  now destruct (write_file q (Archive []) w) as [[[] | e] w'].
Qed.

Lemma traces_write_node p n : traces (write_node p n) [].
Proof. apply traces_silent, write_node_events. Qed.

Lemma traces_write_file p n : traces (write_file p n) [].
Proof. apply traces_silent, write_file_events. Qed.

Lemma traces_make_dirs p : traces (make_dirs p) [].
Proof. apply traces_silent, make_dirs_events. Qed.

Lemma traces_tarfile_create p : traces (tarfile_create p) [].
Proof. apply traces_silent, tarfile_create_events. Qed.

Create HintDb traces.
#[export] Hint Resolve traces_ret traces_lift traces_raise traces_get_fs traces_progress
  traces_log traces_write_node traces_write_file traces_make_dirs
  traces_tarfile_create : traces.

(** Splits a sequence of steps and solves the steps that are known. *)
Ltac traces_step :=
  lazymatch goal with
  | |- traces (bind _ _) _ => eapply traces_bind; [| intros ? | ]
  | |- traces (if ?b then _ else _) _ => destruct b
  | |- traces (match ?x with _ => _ end) _ => destruct x
  | |- _ = _ => reflexivity
  | |- _ => solve [eauto with traces]
  end.
Ltac traces_auto := repeat traces_step.

Lemma traces_extractall dest members : traces (extractall dest members) [].
Proof.
  induction members as [| [rel n] rest IH]; simpl; traces_auto.
Qed.
#[export] Hint Resolve traces_extractall : traces.

Section InstallerTraces.
Context `{Platform}.

Lemma traces_verify_entries pkg entries : traces (verify_entries pkg entries) [].
Proof.
  induction entries as [| [file_path expected] rest IH]; simpl; traces_auto.
Qed.

Lemma traces_verify_checksums pkg : traces (verify_checksums pkg) [].
Proof.
  pose proof (traces_verify_entries pkg). unfold verify_checksums. traces_auto.
Qed.

Lemma traces_report_dependencies deps : traces (report_dependencies deps) [].
Proof. induction deps as [| dep rest IH]; simpl; traces_auto. Qed.

Lemma traces_verify_dependencies pkg : traces (verify_dependencies pkg) [].
Proof.
  pose proof traces_report_dependencies. unfold verify_dependencies. traces_auto.
Qed.

Lemma traces_create_backup pkg : traces (create_backup pkg) [].
Proof.
  intros w r w'. unfold create_backup.
  destruct (py_getitem (metadata pkg) "name") as [name | e].
  - intros E.
    match type of E with
    | ?c _ = _ => assert (T : traces c []) by traces_auto
    end.
    apply (T _ _ _ E).
  - intros [= <- <-]. exists []. simpl. rewrite app_nil_r. repeat split; auto.
Qed.

Lemma traces_run_script script_path env : traces (run_script script_path env) [].
Proof.
  intros w r w'. unfold run_script.
  destruct (negb (fs_exists (fs w) script_path)).
  - intros [= <- <-]. exists []. rewrite app_nil_r. repeat split; auto.
  - destruct (run_process _ _ _) as [code err root | e].
    + destruct (code =? 0); intros [= <- <-]; eexists; simpl;
        (split; [reflexivity |]); split; auto; repeat constructor.
    + intros [= <- <-]; eexists; simpl;
        (split; [reflexivity |]); split; auto; repeat constructor.
Qed.

Lemma traces_copy2 src dst : traces (copy2 src dst) [].
Proof.
  apply traces_silent. intros w. unfold copy2.
  destruct (fs_get (fs w) src) as [[| |] |]; try reflexivity;
    destruct (fs_get (fs w) dst) as [[| |] |];
    unfold write_file, write_node;
    repeat match goal with
           | |- context [match ?x with _ => _ end] => destruct x
           end; reflexivity.
Qed.

Lemma traces_copy_loop source_dir target_dir found :
  traces (copy_loop source_dir target_dir found) [].
Proof.
  pose proof traces_copy2.
  induction found as [| [rel n] rest IH]; simpl; traces_auto.
Qed.

Lemma traces_copy_files source_dir target_dir :
  traces (copy_files source_dir target_dir) [].
Proof.
  pose proof traces_copy_loop. unfold copy_files. traces_auto.
Qed.

Lemma traces_register_package pkg : traces (register_package pkg) [].
Proof. apply traces_ret. Qed.

(** The steps after extraction deliver 10, 20, 30, 40, 50, 70, 80, 90. *)
Lemma traces_install_steps pkg :
  traces (install_steps pkg) [10; 20; 30; 40; 50; 70; 80; 90].
Proof.
  pose proof traces_verify_checksums. pose proof traces_verify_dependencies.
  pose proof traces_create_backup. pose proof traces_run_script.
  pose proof traces_copy_files. pose proof traces_register_package.
  unfold install_steps. traces_auto.
Qed.

Lemma extract_events pkg w : events (snd (extract pkg w)) = events w.
Proof.
  unfold extract.
  destruct (mkdtemp (fs w)) as [tmp |]; [| reflexivity].
  pose proof (write_node_events tmp (Dir []) w) as E1.
  destruct (write_node tmp (Dir []) w) as [[[] | e] w1]; simpl in E1; [| exact E1].
  match goal with
  | |- context [bind ?c ?k w1] =>
      assert (E2 : events (snd (bind c k w1)) = events w1)
        by (apply bind_events; [reflexivity | intros; apply extractall_events]);
      destruct (bind c k w1) as [[[] | e] w2]
  end; simpl in E2; rewrite <- E1, <- E2; [| reflexivity].
  repeat match goal with
         | |- context [match ?x with _ => _ end] => destruct x
         | |- context [if ?x then _ else _] => destruct x
         end; reflexivity.
Qed.

Lemma cleanup_events pkg w : events (snd (cleanup pkg w)) = events w.
Proof.
  unfold cleanup. destruct (temp_dir pkg); [| reflexivity].
  now destruct (fs_get _ _) as [[| |] |].
Qed.

Lemma traces_install_except pkg e : traces (install_except pkg e) [].
Proof. unfold install_except. traces_auto. Qed.

(** [install_package] returns [True] or raises. *)
Lemma install_steps_true pkg w b w' : install_steps pkg w = (Ok b, w') -> b = true.
Proof.
  unfold install_steps. intros E.
  repeat (apply bind_Ok in E as (? & ? & _ & E)).
  now injection E as <- _.
Qed.

Lemma install_except_raises pkg e w : exists e', fst (install_except pkg e w) = Raise e'.
Proof.
  unfold install_except, bind, lift, emit.
  destruct (package_str pkg); simpl; eauto.
Qed.

Lemma install_package_result p w :
  fst (install_package p w) = Ok true \/ exists e, fst (install_package p w) = Raise e.
Proof.
  unfold install_package, install_package_obj, install_try.
  destruct (extract _ _) as [[[tmp | e] pkg] w1].
  - destruct (install_steps pkg w1) as [[b | e] w2] eqn:E.
    + apply install_steps_true in E as ->.
      destruct (cleanup pkg w2) as [[[] | e] w3]; simpl; [now left | right; eauto].
    + destruct (install_except_raises pkg e w2) as [e' E'].
      destruct (install_except pkg e w2) as [r' w3]. simpl in E'. subst r'.
      destruct (cleanup pkg w3) as [[[] | e0] w4]; simpl; right; eauto.
  - destruct (install_except_raises pkg e w1) as [e' E'].
    destruct (install_except pkg e w1) as [r' w3]. simpl in E'. subst r'.
    destruct (cleanup pkg w3) as [[[] | e0] w4]; simpl; right; eauto.
Qed.

(** One package delivers 10, 20, 30, 40, 50, 70, 80, 90 when it is installed
    and a prefix of that when it fails. *)
Lemma traces_install_package p :
  traces (install_package p) [10; 20; 30; 40; 50; 70; 80; 90].
Proof.
  intros w r w'. unfold install_package, install_package_obj, install_try.
  set (w0 := snd (emit (log_message _) w)).
  assert (E0 : events w0 = events w ++ [log_message ("Extracting " ++ path_name p ++ "...")])
    by reflexivity.
  pose proof (extract_events (Package p) w0) as Ex.
  destruct (extract (Package p) w0) as [[[tmp | e] pkg] w1]; simpl in Ex.
  - destruct (install_steps pkg w1) as [[b | e] w2] eqn:E.
    + destruct (traces_install_steps pkg _ _ _ E) as (n1 & E1 & F1 & P1).
      pose proof (cleanup_events pkg w2) as Ec.
      destruct (cleanup pkg w2) as [[[] | e] w3]; simpl in Ec;
        intros [= <- <-]; exists (log_message ("Extracting " ++ path_name p ++ "...") :: n1);
        rewrite Ec, E1, Ex; try rewrite E0; rewrite <- app_assoc; (split; [reflexivity |]);
        (split; [constructor; simpl; auto |]).
      * exact P1.
      * change (percentages n1 `prefix_of` [10; 20; 30; 40; 50; 70; 80; 90]).
        now rewrite P1.
    + destruct (traces_install_steps pkg _ _ _ E) as (n1 & E1 & F1 & P1).
      destruct (install_except_raises pkg e w2) as [e' E'].
      destruct (install_except pkg e w2) as [r' w3] eqn:E2. simpl in E'. subst r'.
      destruct (traces_install_except pkg e _ _ _ E2) as (n2 & E2' & F2 & P2).
      apply prefix_nil_inv in P2.
      pose proof (cleanup_events pkg w3) as Ec.
      destruct (cleanup pkg w3) as [[[] | e0] w4]; simpl in Ec;
        intros [= <- <-];
        exists (log_message ("Extracting " ++ path_name p ++ "...") :: n1 ++ n2);
        rewrite Ec, E2', E1, Ex; try rewrite E0; rewrite <- !app_assoc;
        (split; [reflexivity |]);
        (split; [constructor; simpl; auto; now apply Forall_app |]);
        change (percentages (n1 ++ n2) `prefix_of` [10; 20; 30; 40; 50; 70; 80; 90]);
        now rewrite percentages_app, P2, app_nil_r.
  - destruct (install_except_raises pkg e w1) as [e' E'].
    destruct (install_except pkg e w1) as [r' w3] eqn:E2. simpl in E'. subst r'.
    destruct (traces_install_except pkg e _ _ _ E2) as (n2 & E2' & F2 & P2).
    apply prefix_nil_inv in P2.
    pose proof (cleanup_events pkg w3) as Ec.
    destruct (cleanup pkg w3) as [[[] | e0] w4]; simpl in Ec;
      intros [= <- <-];
      exists (log_message ("Extracting " ++ path_name p ++ "...") :: n2);
      rewrite Ec, E2', Ex; try rewrite E0; rewrite <- !app_assoc;
      (split; [reflexivity |]);
      (split; [constructor; simpl; auto |]);
      change (percentages n2 `prefix_of` [10; 20; 30; 40; 50; 70; 80; 90]);
      rewrite P2; apply prefix_nil.
Qed.

End InstallerTraces.

(** ** The loop of [run] *)

Lemma failure_details_app l1 l2 :
  failure_details (l1 ++ l2) = failure_details l1 ++ failure_details l2.
Proof. apply omap_app. Qed.

Lemma batch_signals_app l1 l2 :
  batch_signals (l1 ++ l2) = batch_signals l1 ++ batch_signals l2.
Proof. apply List.filter_app. Qed.

(** Installing a package writes no failure record and sends no batch signal. *)
Lemma installer_events_quiet l :
  Forall installer_event l -> failure_details l = [] /\ batch_signals l = [].
Proof.
  induction 1 as [| e l He _ [IH1 IH2]]; [now split |].
  destruct e; simpl in He; try contradiction; simpl; auto.
Qed.

Lemma emitted_by_app {A} (c : M A) w new :
  events (snd (c w)) = events w ++ new -> emitted_by c w = new.
Proof. unfold emitted_by. intros ->. apply drop_app_length. Qed.

Section BatchProperties.
Context `{Platform}.

(** One turn of the loop never raises: it counts the package, records its
    failure if it failed, and delivers the batch percentage. *)
Lemma run_one_spec total i p s w :
  exists w' new inst,
    run_one total i p s w = (Ok (counted (fst (install_package p w)) s), w') /\
    events w' = events w ++ new /\
    failure_details new = recorded p (fst (install_package p w)) /\
    batch_signals new = [] /\
    percentages new = inst ++ [batch_percent i total] /\
    match fst (install_package p w) with
    | Ok _ => inst = [10; 20; 30; 40; 50; 70; 80; 90]
    | Raise _ => inst `prefix_of` [10; 20; 30; 40; 50; 70; 80; 90]
    end.
Proof.
  unfold run_one. pose proof (install_package_result p w) as R.
  destruct (install_package p w) as [r w1] eqn:E.
  destruct (traces_install_package p _ _ _ E) as (n1 & E1 & F1 & P1).
  destruct (installer_events_quiet _ F1) as [Q1 Q2].
  simpl in R. destruct R as [-> | [e ->]].
  - eexists _, (n1 ++ [progress_updated (batch_percent i total)]),
      [10; 20; 30; 40; 50; 70; 80; 90].
    split; [reflexivity |]. simpl. rewrite E1, <- app_assoc.
    split; [reflexivity |].
    rewrite failure_details_app, batch_signals_app, percentages_app, Q1, Q2, P1.
    split; [reflexivity |]. split; [reflexivity |]. split; reflexivity.
  - eexists _, (n1 ++ [logging_error _; progress_updated (batch_percent i total)]),
      (percentages n1).
    split; [reflexivity |]. simpl. rewrite E1, <- !app_assoc.
    split; [reflexivity |].
    rewrite failure_details_app, batch_signals_app, percentages_app, Q1, Q2.
    split; [reflexivity |]. split; [reflexivity |]. split; [reflexivity | exact P1].
Qed.

(** The world a turn leaves does not depend on the counter. *)
Lemma run_one_world total i p s s' w :
  snd (run_one total i p s w) = snd (run_one total i p s' w).
Proof.
  unfold run_one. destruct (install_package p w) as [[[|] | e] w1]; reflexivity.
Qed.

Lemma successes_failures l : (successes l + failures l = List.length l)%nat.
Proof.
  unfold successes, failures. induction l as [| a l IH]; [reflexivity |].
  simpl. destruct (is_failure (snd a)); simpl; lia.
Qed.

(** The loop attempts every package, in order, and never raises. *)
Lemma run_loop_spec total packages : forall i s w,
  exists w' new,
    run_loop total i packages s w =
      (Ok (s + successes (attempts total i packages w))%nat, w') /\
    events w' = events w ++ new /\
    failure_details new = omap failure_record (attempts total i packages w) /\
    batch_signals new = [].
Proof.
  induction packages as [| p rest IH]; intros i s w.
  - exists w, []. simpl. unfold successes. simpl.
    rewrite Nat.add_0_r, app_nil_r. repeat split; reflexivity.
  - destruct (run_one_spec total i p s w) as (w1 & n1 & inst & E1 & Ev1 & D1 & S1 & _).
    assert (W : snd (run_one total i p 0%nat w) = w1)
      by now rewrite (run_one_world total i p 0%nat s w), E1.
    destruct (IH (S i) (counted (fst (install_package p w)) s) w1)
      as (w2 & n2 & E2 & Ev2 & D2 & S2).
    exists w2, (n1 ++ n2). simpl attempts. rewrite W.
    split.
    { simpl run_loop. unfold bind. rewrite E1, E2. f_equal. f_equal.
      unfold successes, counted. simpl.
      destruct (is_failure (fst (install_package p w))); simpl; lia. }
    rewrite Ev2, Ev1, <- app_assoc. split; [reflexivity |].
    rewrite failure_details_app, batch_signals_app, D1, D2, S1, S2.
    split; [| reflexivity].
    unfold recorded. simpl. now destruct (failure_record _).
Qed.

End BatchProperties.

Section BatchResult.
Context `{Platform}.

Lemma attempts_length total packages : forall i w,
  List.length (attempts total i packages w) = List.length packages.
Proof. induction packages as [| p ps IH]; intros i w; simpl; auto. Qed.

Lemma failed_le packages w : (failed packages w <= List.length packages)%nat.
Proof.
  unfold failed.
  pose proof (successes_failures (attempts (List.length packages) 1 packages w)) as E.
  rewrite attempts_length in E. lia.
Qed.

Lemma run_loop_count packages w :
  fst (run_loop (List.length packages) 1 packages 0%nat w) =
  Ok (List.length packages - failed packages w)%nat.
Proof.
  destruct (run_loop_spec (List.length packages) packages 1%nat 0%nat w)
    as (w' & new & E & _).
  rewrite E. simpl. f_equal. unfold failed.
  pose proof (successes_failures (attempts (List.length packages) 1 packages w)) as S.
  rewrite attempts_length in S. lia.
Qed.

Lemma failure_records_length (l : list (path * result bool)) :
  List.length (omap failure_record l) = failures l.
Proof.
  unfold failures. induction l as [| [p [b | e]] l IH]; simpl; auto.
Qed.

(** What [run] does, in terms of the number K of failed packages. *)
Lemma run_spec packages w :
  exists w' new,
    run packages w = (Ok tt, w') /\
    events w' = events w ++ new /\
    failure_details new =
      omap failure_record (attempts (List.length packages) 1 packages w) /\
    batch_signals new =
      [if (failed packages w =? 0)%nat then installation_completed
       else installation_failed
              ("Failed to install " ++ pretty (failed packages w) ++ " package(s)")].
Proof.
  pose proof (run_loop_count packages w) as C.
  pose proof (failed_le packages w) as L.
  destruct (run_loop_spec (List.length packages) packages 1%nat 0%nat w)
    as (w1 & n1 & E & Ev & D & S).
  rewrite Nat.add_0_l in E. rewrite E in C. simpl in C. injection C as C.
  unfold run, try_except, bind. rewrite E, C.
  set (N := List.length packages) in *. set (K := failed packages w) in *.
  destruct (Nat.eqb_spec (N - K) N) as [Heq | Hne].
  - assert (K0 : K = 0%nat).
    { destruct packages; [reflexivity | simpl in N; lia]. }
    eexists _, (n1 ++ [installation_completed]). split; [reflexivity |].
    simpl. rewrite Ev, <- app_assoc. split; [reflexivity |].
    rewrite failure_details_app, batch_signals_app, S, K0, app_nil_r. simpl.
    split; [exact D | reflexivity].
  - assert (K0 : K <> 0%nat) by lia.
    eexists _, (n1 ++ [installation_failed _]). split; [reflexivity |].
    simpl. rewrite Ev, <- app_assoc. split; [reflexivity |].
    rewrite failure_details_app, batch_signals_app, S, app_nil_r. simpl.
    split; [exact D |].
    destruct (Nat.eqb_spec K 0); [contradiction |].
    replace (N - (N - K))%nat with K by lia. reflexivity.
Qed.

(** C1. For a batch of N packages of which K fail, [run] counts N - K
    successes and writes exactly K failure records; it sends the
    batch-completed signal if and only if K = 0, and otherwise, as its only
    batch signal, batch-failed with the count K. *)
Theorem run_batch_result (packages : list path) (w : world) :
  let N := List.length packages in
  let K := failed packages w in
  let sent := emitted_by (run packages) w in
  fst (run_loop N 1 packages 0%nat w) = Ok (N - K)%nat /\
  fst (run packages w) = Ok tt /\
  List.length (failure_details sent) = K /\
  (In installation_completed sent <-> K = 0%nat) /\
  (K = 0%nat -> batch_signals sent = [installation_completed]) /\
  (K <> 0%nat ->
   batch_signals sent =
     [installation_failed ("Failed to install " ++ pretty K ++ " package(s)")]).
Proof.
  intros N K sent.
  destruct (run_spec packages w) as (w' & new & E & Ev & D & S).
  assert (Es : sent = new).
  { unfold sent. apply emitted_by_app. now rewrite E. }
  rewrite Es. fold K in S.
  split; [apply run_loop_count |]. split; [now rewrite E |].
  split; [rewrite D; apply failure_records_length |].
  assert (I : In installation_completed new <->
              In installation_completed (batch_signals new)).
  { unfold batch_signals. rewrite List.filter_In. tauto. }
  destruct (Nat.eqb_spec K 0) as [K0 | K0].
  - split; [| split; [auto | contradiction]].
    rewrite I, S. simpl. tauto.
  - split; [| split; [contradiction | auto]].
    rewrite I, S. simpl. split; [| contradiction].
    intros [D' | []]. discriminate D'.
Qed.

End BatchResult.

Section BatchBoundary.
Context `{Platform}.

Lemma attempts_paths total packages : forall i w,
  List.map fst (attempts total i packages w) = packages.
Proof.
  induction packages as [| p ps IH]; intros i w; simpl; [reflexivity |].
  now rewrite IH.
Qed.

(** C6. Every error raised while a package is installed is caught in the
    turn of that package: the turn itself never raises, it writes one record
    that names the package and leaves the success counter as it was, and the
    loop goes on with the next package; so every package of the batch is
    attempted, in the order supplied, and the records written are exactly
    those of the packages that failed. *)
Theorem run_catches_each_failure (packages : list path) (w : world) :
  let N := List.length packages in
  let tried := attempts N 1 packages w in
  fst (run packages w) = Ok tt /\
  List.map fst tried = packages /\
  fst (run_loop N 1 packages 0%nat w) = Ok (N - failures tried)%nat /\
  failure_details (emitted_by (run packages) w) = omap failure_record tried /\
  (forall p e, In (p, Raise e) tried ->
     In ("Failed to install " ++ path_str p ++ ": " ++ exn_str e)%string
        (failure_details (emitted_by (run packages) w))) /\
  (forall i p rest s w0,
     exists w1,
       run_one N i p s w0 = (Ok (counted (fst (install_package p w0)) s), w1) /\
       (forall e, fst (install_package p w0) = Raise e ->
          counted (fst (install_package p w0)) s = s /\
          exists sent, events w1 = events w0 ++ sent /\
            failure_details sent =
              ["Failed to install " ++ path_str p ++ ": " ++ exn_str e]%string) /\
       run_loop N i (p :: rest) s w0 =
         run_loop N (S i) rest (counted (fst (install_package p w0)) s) w1).
Proof.
  intros N tried.
  destruct (run_spec packages w) as (w' & new & E & Ev & D & S).
  assert (Es : emitted_by (run packages) w = new).
  { apply emitted_by_app. now rewrite E. }
  rewrite Es.
  split; [now rewrite E |]. split; [apply attempts_paths |].
  split; [apply run_loop_count |]. split; [exact D |]. split.
  - intros p e Hin. rewrite D. apply list_elem_of_In.
    apply list_elem_of_omap. exists (p, Raise e). split; [| reflexivity].
    now apply list_elem_of_In.
  - intros i p rest s w0.
    destruct (run_one_spec N i p s w0) as (w1 & sent & inst & E1 & Ev1 & D1 & _).
    exists w1. split; [exact E1 |]. split.
    + intros e He. rewrite He in *. split; [reflexivity |].
      exists sent. split; [exact Ev1 | exact D1].
    + simpl run_loop. unfold bind. now rewrite E1.
Qed.

End BatchBoundary.

(** ** Progress *)

Lemma prefix_of_steps_increases l :
  l `prefix_of` [10; 20; 30; 40; 50; 70; 80; 90] ->
  strictly_increases l = true /\ strictly_increases (l ++ [100]) = true.
Proof.
  intros [k E].
  do 8 (destruct l as [| ? l]; [split; reflexivity | simpl in E; injection E as <- E]).
  destruct l; [split; reflexivity | discriminate E].
Qed.

(** In a sequence that never regresses, what comes first is at most what
    comes later. *)
Lemma never_regresses_cons a l :
  never_regresses (a :: l) = true ->
  never_regresses l = true /\ forall y, In y l -> a <= y.
Proof.
  revert a. induction l as [| b l IH]; intros a Hn; [split; [reflexivity | intros ? []] |].
  cbn [never_regresses] in Hn. apply andb_true_iff in Hn as [Hab Hl].
  apply Z.leb_le in Hab. split; [exact Hl |].
  intros y [<- | Hy]; [exact Hab |].
  destruct (IH b Hl) as [_ Hb]. specialize (Hb y Hy). lia.
Qed.

Lemma never_regresses_app l1 l2 :
  never_regresses (l1 ++ l2) = true ->
  never_regresses l2 = true /\ forall x y, In x l1 -> In y l2 -> x <= y.
Proof.
  induction l1 as [| a l1 IH]; intros Hn; [split; [exact Hn | intros ? ? []] |].
  rewrite <- app_comm_cons in Hn. apply never_regresses_cons in Hn as [Hl Ha].
  destruct (IH Hl) as [H2 H12]. split; [exact H2 |].
  intros x y [<- | Hx] Hy; [apply Ha, in_or_app; now right | now apply H12].
Qed.

Section Progress.
Context `{Platform}.

(** The percentages of a batch of one package: those of the package, then 100. *)
Lemma run_single_percentages p w :
  exists inst,
    percentages (emitted_by (run [p]) w) = inst ++ [100] /\
    match fst (install_package p w) with
    | Ok _ => inst = [10; 20; 30; 40; 50; 70; 80; 90]
    | Raise _ => inst `prefix_of` [10; 20; 30; 40; 50; 70; 80; 90]
    end.
Proof.
  destruct (run_one_spec 1 1 p 0%nat w) as (w1 & sent & inst & E1 & Ev1 & _ & _ & P1 & I1).
  exists inst. split; [| exact I1].
  rewrite batch_percent_last in P1 by lia.
  assert (E : exists sig, events (snd (run [p] w)) = events w1 ++ [sig] /\
                          percentages [sig] = []).
  { unfold run, try_except. simpl run_loop. unfold bind. rewrite E1. simpl.
    destruct (counted _ _ =? 1)%nat; simpl; eexists; split; reflexivity. }
  destruct E as (sig & E & Ps).
  rewrite (emitted_by_app (run [p]) w (sent ++ [sig])).
  - now rewrite percentages_app, P1, Ps, app_nil_r.
  - now rewrite E, Ev1, app_assoc.
Qed.

(** The percentages of a batch: those of its first package, the batch
    percentage, then those of the rest of the batch. *)
Lemma run_loop_cons_percentages total i p rest s w :
  exists inst,
    percentages (emitted_by (run_loop total i (p :: rest) s) w) =
      (inst ++ [batch_percent i total]) ++
      percentages (emitted_by
                     (run_loop total (S i) rest (counted (fst (install_package p w)) s))
                     (snd (run_one total i p 0%nat w))) /\
    match fst (install_package p w) with
    | Ok _ => inst = [10; 20; 30; 40; 50; 70; 80; 90]
    | Raise _ => inst `prefix_of` [10; 20; 30; 40; 50; 70; 80; 90]
    end.
Proof.
  destruct (run_one_spec total i p s w) as (w1 & n1 & inst & E1 & Ev1 & _ & _ & P1 & I1).
  assert (W : snd (run_one total i p 0%nat w) = w1)
    by now rewrite (run_one_world total i p 0%nat s w), E1.
  rewrite W.
  destruct (run_loop_spec total rest (S i) (counted (fst (install_package p w)) s) w1)
    as (w2 & n2 & E2 & Ev2 & _).
  assert (Erun : run_loop total i (p :: rest) s w =
                 run_loop total (S i) rest (counted (fst (install_package p w)) s) w1).
  { simpl run_loop. unfold bind. now rewrite E1. }
  exists inst. split; [| exact I1].
  rewrite (emitted_by_app (run_loop total i (p :: rest) s) w (n1 ++ n2))
    by now rewrite Erun, E2, app_assoc; simpl; rewrite Ev2, Ev1.
  rewrite (emitted_by_app _ w1 n2) by now rewrite E2.
  now rewrite percentages_app, P1.
Qed.

(** The signal that ends [run] is no percentage. *)
Lemma run_percentages packages w :
  percentages (emitted_by (run packages) w) =
  percentages (emitted_by (run_loop (List.length packages) 1 packages 0%nat) w).
Proof.
  destruct (run_loop_spec (List.length packages) packages 1%nat 0%nat w)
    as (w1 & n1 & E & Ev & _).
  rewrite (emitted_by_app (run_loop _ _ _ _) w n1) by now rewrite E.
  assert (Es : exists sig, events (snd (run packages w)) = events w1 ++ [sig] /\
                           percentages [sig] = []).
  { unfold run, try_except, bind. rewrite E.
    destruct (_ =? _)%nat; simpl; eexists; split; reflexivity. }
  destruct Es as (sig & Es & Ps).
  rewrite (emitted_by_app (run packages) w (n1 ++ [sig]))
    by now rewrite Es, Ev, app_assoc.
  now rewrite percentages_app, Ps, app_nil_r.
Qed.

Lemma successes_cons (a : path * result bool) l :
  successes (a :: l) = ((if is_failure (snd a) then 0 else 1) + successes l)%nat.
Proof. unfold successes. simpl. now destruct (is_failure (snd a)). Qed.

(** A batch in which a package is installed delivers a 10. *)
Lemma success_starts total packages : forall i s w,
  (1 <= successes (attempts total i packages w))%nat ->
  In 10 (percentages (emitted_by (run_loop total i packages s) w)).
Proof.
  induction packages as [| p rest IH]; intros i s w Hs.
  - unfold successes in Hs. simpl in Hs. lia.
  - destruct (run_loop_cons_percentages total i p rest s w) as (inst & -> & I).
    cbn [attempts] in Hs. rewrite successes_cons in Hs. cbn [snd] in Hs.
    destruct (fst (install_package p w)) as [b | e]; cbn [is_failure] in Hs.
    + subst inst. now left.
    + apply in_or_app. right. apply IH. exact Hs.
Qed.

(** A batch in which two packages are installed regresses: the later one
    starts again at 10 after the earlier one has reached 90. *)
Lemma two_successes_regress total packages : forall i s w,
  (2 <= successes (attempts total i packages w))%nat ->
  never_regresses (percentages (emitted_by (run_loop total i packages s) w)) = false.
Proof.
  induction packages as [| p rest IH]; intros i s w Hs.
  - unfold successes in Hs. simpl in Hs. lia.
  - destruct (run_loop_cons_percentages total i p rest s w) as (inst & -> & I).
    cbn [attempts] in Hs. rewrite successes_cons in Hs. cbn [snd] in Hs.
    destruct (never_regresses _) eqn:Hn; [exfalso | reflexivity].
    apply never_regresses_app in Hn as [Hrest Hle].
    destruct (fst (install_package p w)) as [b | e]; cbn [is_failure] in Hs.
    + subst inst.
      assert (H10 : In 10 (percentages
                (emitted_by (run_loop total (S i) rest (counted (Ok b) s))
                            (snd (run_one total i p 0%nat w)))))
        by (apply success_starts; lia).
      specialize (Hle 90 10). assert (90 <= 10); [| lia].
      apply Hle; [| exact H10]. apply in_or_app. left. simpl. tauto.
    + rewrite IH in Hrest by exact Hs. discriminate.
Qed.

(** C2 (as the code has it). The percentages one package delivers while it
    is installed go up at every step, whether it succeeds or fails, and in a
    batch of a single package the percentages of the whole run go up at
    every step and end in 100.  In a batch in which two packages or more are
    installed the percentages of the run regress: the batch percentage and
    the percentages of every package go to the same sink, and each package
    starts again at 10. *)
Theorem progress_increases_within_package (p : path) (w : world) :
  strictly_increases (percentages (emitted_by (install_package p) w)) = true /\
  strictly_increases (percentages (emitted_by (run [p]) w)) = true /\
  List.last (percentages (emitted_by (run [p]) w)) 0 = 100 /\
  (forall packages w0,
     (2 <= successes (attempts (List.length packages) 1 packages w0))%nat ->
     never_regresses (percentages (emitted_by (run packages) w0)) = false).
Proof.
  split; [| split; [| split]].
  - destruct (install_package p w) as [r w'] eqn:E.
    destruct (traces_install_package p _ _ _ E) as (new & Ev & _ & P).
    rewrite (emitted_by_app (install_package p) w new) by now rewrite E.
    destruct r.
    + rewrite P. reflexivity.
    + now apply prefix_of_steps_increases.
  - destruct (run_single_percentages p w) as (inst & -> & I).
    destruct (fst (install_package p w)).
    + subst inst. reflexivity.
    + now apply prefix_of_steps_increases.
  - destruct (run_single_percentages p w) as (inst & -> & _).
    apply List.last_last.
  - intros packages w0 Hs. rewrite run_percentages.
    now apply two_successes_regress.
Qed.

(** C3. When a batch holds one package and that package is installed, the
    percentages delivered are exactly 10, 20, 30, 40, 50, 70, 80, 90, 100. *)
Theorem single_success_progress (p : path) (w : world) :
  fst (install_package p w) = Ok true ->
  percentages (emitted_by (run [p]) w) = [10; 20; 30; 40; 50; 70; 80; 90; 100].
Proof.
  intros Hok. destruct (run_single_percentages p w) as (inst & -> & I).
  rewrite Hok in I. now subst inst.
Qed.

End Progress.

Lemma single_success_progress_witness :
  fst (@install_package Demo.platform Demo.demo_path Demo.world0) = Ok true /\
  percentages (emitted_by (@run Demo.platform [Demo.demo_path]) Demo.world0) =
    [10; 20; 30; 40; 50; 70; 80; 90; 100].
Proof.
  split; [vm_compute; reflexivity |].
  apply (@single_success_progress Demo.platform). vm_compute. reflexivity.
Defined.

Lemma progress_increases_within_package_witness :
  never_regresses
    (percentages (emitted_by (@run Demo.platform [Demo.demo_path; Demo.demo_path])
                             Demo.world0)) = false.
Proof.
  apply (proj2 (proj2 (proj2 (@progress_increases_within_package Demo.platform
                                Demo.demo_path Demo.world0)))).
  vm_compute. apply le_n.
Defined.

(** C2 as stated fails: in a batch of two packages that are both installed,
    90 is followed by 50 and later by 10. *)
Lemma progress_regresses_in_batch :
  percentages (emitted_by (@run Demo.platform [Demo.demo_path; Demo.demo_path])
                          Demo.world0) =
    [10; 20; 30; 40; 50; 70; 80; 90; 50; 10; 20; 30; 40; 50; 70; 80; 90; 100] /\
  never_regresses
    (percentages (emitted_by (@run Demo.platform [Demo.demo_path; Demo.demo_path])
                             Demo.world0)) = false.
Proof. split; vm_compute; reflexivity. Qed.

(** ** What the steps leave in place *)

Lemma keeps_refl root : keeps root root.
Proof. intros q n Hq. eauto. Qed.

Lemma keeps_trans r1 r2 r3 : keeps r1 r2 -> keeps r2 r3 -> keeps r1 r3.
Proof.
  intros H12 H23 q n Hq. destruct (H12 q n Hq) as (n2 & H2 & D2).
  destruct (H23 q n2 H2) as (n3 & H3 & D3). exists n3. split; congruence.
Qed.

Lemma fs_put_shape es c p n root' :
  fs_put (Dir es) (c :: p) n = Some root' ->
  exists child',
    root' = Dir (assoc_set c child' es) /\
    match p with
    | [] => child' = n
    | _ :: _ => exists child, assoc c es = Some child /\ fs_put child p n = Some child'
    end.
Proof.
  destruct p as [| c' p].
  - intros [= <-]. eauto.
  - rewrite fs_put_cons. destruct (assoc c es) as [child |]; [| discriminate].
    destruct (fs_put child (c' :: p) n) as [child' |] eqn:E; [| discriminate].
    intros [= <-]. eauto.
Qed.

(** Writing a regular file where there is no directory keeps everything. *)
Lemma fs_put_keeps root p n root' :
  fs_put root p n = Some root' -> is_dir n = false ->
  (forall es, fs_get root p <> Some (Dir es)) ->
  keeps root root'.
Proof.
  revert root root'. induction p as [| c p IH]; intros root root' Hput Hn Hnd.
  - now rewrite fs_put_root in Hput.
  - destruct root as [t | ms | es]; try (destruct p; discriminate Hput).
    destruct (fs_put_shape _ _ _ _ _ Hput) as (child' & -> & Hshape).
    intros q m Hq. destruct q as [| d q].
    + injection Hq as <-. simpl. eauto.
    + rewrite fs_get_cons in Hq. rewrite fs_get_cons.
      destruct (String.eqb_spec c d) as [<- | Hne].
      * rewrite assoc_set_eq.
        destruct (assoc c es) as [old |] eqn:Eo; [| discriminate].
        destruct p as [| c' p].
        -- subst child'. specialize (Hnd).
           assert (Hold : is_dir old = false).
           { destruct old; try reflexivity. exfalso. eapply Hnd. simpl. now rewrite Eo. }
           destruct q as [| d' q].
           ++ injection Hq as <-. exists n. split; [reflexivity | congruence].
           ++ destruct old; try discriminate Hold; discriminate Hq.
        -- destruct Hshape as (child & Hc & Hp). injection Hc as <-.
           eapply (IH old child' Hp Hn); [| exact Hq].
           intros es' He. eapply Hnd. rewrite fs_get_cons, Eo. exact He.
      * rewrite assoc_set_ne by exact Hne. destruct (assoc d es); [| discriminate]. eauto.
Qed.

Lemma fs_mkdir_p_keeps root p root' : fs_mkdir_p root p = Some root' -> keeps root root'.
Proof.
  revert root root'. induction p as [| c p IH]; intros root root' Hmk.
  - destruct root; simpl in Hmk; try discriminate. injection Hmk as <-. apply keeps_refl.
  - destruct root as [t | ms | es]; try discriminate.
    rewrite fs_mkdir_p_cons in Hmk.
    destruct (fs_mkdir_p (default (Dir []) (assoc c es)) p) as [child' |] eqn:E;
      [| discriminate].
    injection Hmk as <-. intros q m Hq. destruct q as [| d q].
    + injection Hq as <-. simpl. eauto.
    + rewrite fs_get_cons in Hq. rewrite fs_get_cons.
      destruct (String.eqb_spec c d) as [<- | Hne].
      * rewrite assoc_set_eq. destruct (assoc c es) as [old |]; [| discriminate].
        exact (IH _ _ E q m Hq).
      * rewrite assoc_set_ne by exact Hne. destruct (assoc d es); [| discriminate]. eauto.
Qed.

Lemma keeping_ret {A} (a : A) : keeping (ret a).
Proof. intros w. apply keeps_refl. Qed.

Lemma keeping_emit e : keeping (emit e).
Proof. intros w. apply keeps_refl. Qed.

Lemma keeping_get_fs : keeping get_fs.
Proof. intros w. apply keeps_refl. Qed.


Lemma keeping_bind {A B} (c : M A) (k : A -> M B) :
  keeping c -> (forall a, keeping (k a)) -> keeping (bind c k).
Proof.
  intros Hc Hk w. unfold bind. specialize (Hc w).
  destruct (c w) as [[a | e] w1]; simpl in *; [| exact Hc].
  eapply keeps_trans; [exact Hc | apply Hk].
Qed.

Lemma keeping_make_dirs p : keeping (make_dirs p).
Proof.
  intros w. unfold make_dirs.
  destruct (fs_mkdir_p (fs w) p) eqn:E; simpl; [| apply keeps_refl].
  eapply fs_mkdir_p_keeps; eauto.
Qed.

Lemma keeping_write_file p n : is_dir n = false -> keeping (write_file p n).
Proof.
  intros Hn w. unfold write_file, write_node.
  destruct (fs_get (fs w) p) as [[t | ms | es] |] eqn:Eg; simpl; try apply keeps_refl;
    (destruct (fs_put (fs w) p n) eqn:E; simpl; [| apply keeps_refl];
     eapply fs_put_keeps; eauto; intros es' He; congruence).
Qed.

Lemma reads_only_bind {A B} (c : M A) (k : A -> M B) :
  reads_only c -> (forall a, reads_only (k a)) -> reads_only (bind c k).
Proof.
  intros Hc Hk w. unfold bind. specialize (Hc w).
  destruct (c w) as [[a | e] w1]; simpl in *; [| exact Hc].
  now rewrite Hk.
Qed.

Lemma reads_only_emit e : reads_only (emit e).
Proof. intros w. reflexivity. Qed.



Lemma lookup_error_not_PackageError e : lookup_error e = true -> is_PackageError e = false.
Proof. unfold lookup_error, is_PackageError. now destruct (exn_cls e). Qed.

Section Frames.
Context `{Platform}.

Lemma keeping_copy2 src dst : keeping (copy2 src dst).
Proof.
  intros w. unfold copy2.
  destruct (fs_get (fs w) src) as [[t | ms | es] |]; try apply keeps_refl;
    destruct (fs_get (fs w) dst) as [[| |] |]; now apply keeping_write_file.
Qed.

Lemma keeping_copy_loop source_dir target_dir found :
  keeping (copy_loop source_dir target_dir found).
Proof.
  induction found as [| [rel n] rest IH]; [apply keeping_ret |].
  cbn [copy_loop]. apply keeping_bind; [apply keeping_get_fs | intros root].
  apply keeping_bind; [| intros _; exact IH].
  destruct (fs_is_file root (source_dir ++ rel)); [| apply keeping_ret].
  apply keeping_bind; [apply keeping_make_dirs | intros _; apply keeping_copy2].
Qed.



Lemma reads_only_verify_entries pkg entries : reads_only (verify_entries pkg entries).
Proof.
  induction entries as [| [file_path expected] rest IH]; [intros w; reflexivity |].
  intros w. cbn [verify_entries]. unfold bind, lift, get_fs, raise.
  destruct (the_temp_dir pkg) as [tmp | e]; [| reflexivity].
  destruct (os_lookup (fs w) (path_join tmp file_path)) as [[t | ms | es] |];
    try reflexivity;
    (destruct (String.eqb _ expected); [apply IH | reflexivity]).
Qed.

Lemma reads_only_verify_checksums pkg : reads_only (verify_checksums pkg).
Proof.
  unfold verify_checksums. destruct (md5sums pkg) as [| en rest] eqn:Em;
    [intros w; reflexivity |].
  apply reads_only_bind; [apply reads_only_emit | intros _].
  apply reads_only_bind; [apply reads_only_verify_entries | intros _ w; reflexivity].
Qed.

(** A dependency list is reported without touching the file system; when
    the report stops, it stops at a dependency that cannot be reported, with
    the error of the failed lookup. *)
Lemma report_dependencies_checked deps : forall w,
  fs (snd (report_dependencies deps w)) = fs w /\
  match fst (report_dependencies deps w) with
  | Ok _ => True
  | Raise e => lookup_error e = true /\ forallb reportable deps = false
  end.
Proof.
  induction deps as [| dep rest IH]; intros w; [now split |].
  cbn [report_dependencies forallb]. unfold bind, lift, emit.
  destruct (py_getitem dep "name") as [name | e] eqn:En.
  2: { cbn [fst snd]. split; [reflexivity |].
       destruct dep; simpl in En; try (injection En as <-; now split).
       unfold of_option in En. cbn [reportable].
       destruct (assoc "name" fields); [discriminate |].
       injection En as <-. now split. }
  destruct (py_getitem dep "version") as [version | e] eqn:Ev.
  2: { cbn [fst snd]. split; [reflexivity |].
       destruct dep; simpl in Ev; try (injection Ev as <-; now split).
       unfold of_option in Ev. cbn [reportable].
       destruct (assoc "version" fields); [discriminate |].
       injection Ev as <-. split; [reflexivity |].
       now rewrite andb_false_r. }
  destruct (py_get dep "condition" (JStr ">=")) as [condition | e] eqn:Ec.
  2: { cbn [fst snd]. split; [reflexivity |].
       destruct dep; simpl in Ec; try (injection Ec as <-; now split). discriminate. }
  match goal with
  | |- context [report_dependencies rest ?w1] => destruct (IH w1) as [If Ir]
  end.
  split; [exact If |].
  destruct (fst (report_dependencies rest _)); [exact I |].
  destruct Ir as [Hl Hr]. split; [exact Hl |]. rewrite Hr. apply andb_false_r.
Qed.

Lemma verify_dependencies_checked (pkg : package) (w : world) :
  fs (snd (verify_dependencies pkg w)) = fs w /\
  match fst (verify_dependencies pkg w) with
  | Ok b => b = true
  | Raise e => lookup_error e = true /\ well_declared (metadata pkg) = false
  end.
Proof.
  unfold verify_dependencies, bind, lift.
  destruct (py_contains "dependencies" (metadata pkg)) as [declared | e] eqn:Ec.
  2: { cbn [fst snd]. split; [reflexivity |].
       destruct (metadata pkg); simpl in Ec; try discriminate;
         injection Ec as <-; now split. }
  destruct declared; cbn [negb]; [| now split].
  unfold emit at 1.
  destruct (py_getitem (metadata pkg) "dependencies") as [deps | e] eqn:Eg.
  2: { cbn [fst snd fs]. split; [reflexivity |].
       destruct (metadata pkg); simpl in Eg; try (injection Eg as <-; now split).
       simpl in Ec. unfold of_option in Eg.
       destruct (assoc "dependencies" fields); [discriminate |].
       injection Ec as Ec. discriminate Ec. }
  assert (Hwd : match deps with
                | JList l => well_declared (metadata pkg) = forallb reportable l
                | _ => well_declared (metadata pkg) = false
                end).
  { destruct (metadata pkg) as [| | | | | fields]; simpl in Eg; try discriminate.
    unfold of_option in Eg. cbn [well_declared].
    destruct (assoc "dependencies" fields) as [j |]; [| discriminate].
    injection Eg as ->. now destruct deps. }
  destruct (py_iter deps) as [items | e] eqn:Ei.
  2: { cbn [fst snd fs]. split; [reflexivity |].
       destruct deps; simpl in Ei; try discriminate; injection Ei as <-; now split. }
  simpl.
  match goal with
  | |- context [report_dependencies items ?w1] =>
      destruct (report_dependencies_checked items w1) as [If Ir];
      destruct (report_dependencies items w1) as [[[] | e] w2]
  end; simpl in *; split; auto.
  destruct Ir as [Hl Hr]. split; [exact Hl |].
  destruct deps; try exact Hwd. simpl in Ei. injection Ei as <-. now rewrite Hwd.
Qed.

Lemma reads_only_verify_dependencies pkg : reads_only (verify_dependencies pkg).
Proof. intros w. apply verify_dependencies_checked. Qed.

End Frames.

(** ** The workspace *)


Lemma cleanup_dir pkg w tmp es :
  temp_dir pkg = Some tmp -> fs_get (fs w) tmp = Some (Dir es) ->
  cleanup pkg w = (Ok tt, World (fs_remove (fs w) tmp) (events w) (clock w)).
Proof. intros Ht Hd. unfold cleanup. now rewrite Ht, Hd. Qed.


(** Unless a regular file sits at the workspace path, nothing is left there. *)
Lemma cleanup_removes pkg w tmp :
  temp_dir pkg = Some tmp -> tmp <> [] -> fs_is_file (fs w) tmp = false ->
  fst (cleanup pkg w) = Ok tt /\ fs_exists (fs (snd (cleanup pkg w))) tmp = false.
Proof.
  intros Ht Hne Hf. unfold cleanup, fs_is_file, fs_exists in *. rewrite Ht.
  destruct (fs_get (fs w) tmp) as [[| |] |] eqn:E; try discriminate; cbn [fst snd fs].
  - split; [reflexivity |]. destruct tmp as [| c tmp]; [contradiction |].
    now rewrite fs_get_remove.
  - now rewrite E.
Qed.







Section Workspace.
Context `{Platform}.









End Workspace.



(** ** Scripts *)

Section Scripts.
Context `{Platform}.

(** C8. A script that does not exist counts as run; one that exists is
    started as a child process whose environment is the inherited one
    ([os.environ], which also overrides a caller-supplied mapping) plus
    [PACKAGE_ROOT], and a non-zero exit status raises [PackageError] with
    the captured standard error in its message. *)
Theorem run_script_contract (script_path : path) (env : option (gmap string string))
    (w : world) :
  let install_root := path_str (path_parent (path_parent script_path)) in
  let child_env := <["PACKAGE_ROOT" := install_root]> (os_environ ∪ default ∅ env) in
  (fs_exists (fs w) script_path = false ->
   run_script script_path env w = (Ok true, w)) /\
  (env = None -> child_env = <["PACKAGE_ROOT" := install_root]> os_environ) /\
  (forall k, k <> "PACKAGE_ROOT" -> is_Some (os_environ !! k) ->
             child_env !! k = os_environ !! k) /\
  (fs_exists (fs w) script_path = true ->
   emitted_by (run_script script_path env) w =
     [log_message ("Running " ++ path_name script_path ++ "...");
      subprocess_run [path_str script_path] child_env] /\
   (forall returncode stderr root,
      run_process (fs w) script_path child_env = Exited returncode stderr root ->
      (returncode <> 0 ->
       fst (run_script script_path env w) =
         Raise (Exn PackageError (path_name script_path ++ " failed: " ++ stderr))) /\
      (returncode = 0 -> fst (run_script script_path env w) = Ok true))).
Proof.
  intros install_root child_env. split; [| split; [| split]].
  - intros Hno. unfold run_script. now rewrite Hno.
  - intros ->. unfold child_env. simpl. now rewrite (right_id_L ∅ (∪)).
  - intros k Hk [v Hv]. unfold child_env.
    rewrite lookup_insert_ne by congruence.
    rewrite Hv. now apply lookup_union_Some_l.
  - intros Hyes. split.
    + apply emitted_by_app. unfold run_script. rewrite Hyes. simpl.
      fold install_root. fold child_env.
      destruct (run_process _ _ _) as [code err root | e]; [| reflexivity].
      now destruct (code =? 0).
    + intros code err root Hrun. unfold run_script. rewrite Hyes. simpl.
      fold install_root. fold child_env. rewrite Hrun. split.
      * intros Hcode. apply Z.eqb_neq in Hcode. now rewrite Hcode.
      * now intros ->.
Qed.

End Scripts.

Lemma run_script_contract_witness :
  fst (@run_script Demo.platform Demo.staged_script None Demo.staged_world) =
    Raise (Exn PackageError "postinstall failed: boom").
Proof.
  destruct (@run_script_contract Demo.platform Demo.staged_script None Demo.staged_world)
    as (_ & _ & _ & Hrun).
  destruct (Hrun ltac:(vm_compute; reflexivity)) as [_ Hexit].
  destruct (Hexit 1 "boom" (fs Demo.staged_world) ltac:(vm_compute; reflexivity))
    as [Hfail _].
  apply Hfail. discriminate.
Defined.

(** ** Extraction *)

(** Writing a regular file at [p] creates nothing at a path that does not
    lead to [p]. *)
Lemma fs_put_file_absent root p n root' q :
  fs_put root p n = Some root' ->
  fs_get root q = None -> ~ q `prefix_of` p -> is_dir n = false ->
  fs_get root' q = None.
Proof.
  intros Hput Hq Hpre Hn.
  destruct (decide (p `prefix_of` q)) as [[k ->] | Hno].
  - rewrite (fs_get_put _ _ _ _ k Hput).
    destruct k as [| c k].
    + exfalso. apply Hpre. exists []. now rewrite !app_nil_r.
    + now destruct n.
  - eapply fs_put_absent; eauto.
Qed.

Lemma removelast_prefix {A} (l : list A) : List.removelast l `prefix_of` l.
Proof.
  destruct l as [| a l]; [now exists [] |].
  exists [List.last (a :: l) a]. now apply app_removelast_last.
Qed.

Lemma below_workspace (tmp : path) (name : string) (rel : path) :
  (tmp ++ [name]) `prefix_of` (tmp ++ rel) -> List.head rel = Some name.
Proof.
  intros Hp. apply prefix_app_inv in Hp. destruct Hp as [k ->]. reflexivity.
Qed.

(** Unpacking members none of which is [name] or lies below it leaves
    [name] absent from the workspace. *)
Lemma extractall_absent tmp name members : forall w w',
  (forall rel n, In (rel, n) members -> List.head rel <> Some name) ->
  fs_get (fs w) (tmp ++ [name]) = None ->
  extractall tmp members w = (Ok tt, w') ->
  fs_get (fs w') (tmp ++ [name]) = None.
Proof.
  induction members as [| [rel n] rest IH]; intros w w' Hm Hq Hx.
  - now injection Hx as <-.
  - simpl in Hx. apply bind_Ok in Hx as ([] & w1 & Hstep & Hrest).
    assert (Hrel : ~ (tmp ++ [name]) `prefix_of` (tmp ++ rel)).
    { intros Hp. apply below_workspace in Hp. eapply Hm; [left; reflexivity | exact Hp]. }
    apply (IH w1 w'); [intros; eapply Hm; right; eauto | | exact Hrest].
    destruct (is_dir n) eqn:Hn.
    + unfold make_dirs in Hstep.
      destruct (fs_mkdir_p (fs w) (tmp ++ rel)) as [root' |] eqn:E; [| discriminate].
      injection Hstep as <-. simpl. eapply fs_mkdir_p_absent; eauto.
    + apply bind_Ok in Hstep as ([] & w0 & Hmk & Hwr).
      unfold make_dirs in Hmk.
      destruct (fs_mkdir_p (fs w) (path_parent (tmp ++ rel))) as [root0 |] eqn:E;
        [| discriminate].
      injection Hmk as <-.
      assert (H0 : fs_get root0 (tmp ++ [name]) = None).
      { eapply fs_mkdir_p_absent; eauto. intros Hp. apply Hrel.
        etransitivity; [exact Hp | apply removelast_prefix]. }
      unfold write_file, write_node in Hwr. simpl in Hwr.
      destruct (fs_get root0 (tmp ++ rel)) as [[| |] |];
        try discriminate;
        (destruct (fs_put root0 (tmp ++ rel) n) as [root' |] eqn:E'; [| discriminate];
         injection Hwr as <-; simpl; eapply fs_put_file_absent; eauto).
Qed.

Lemma read_text_exists root p text : read_text root p = Ok text -> fs_exists root p = true.
Proof.
  unfold read_text, fs_exists. now destruct (fs_get root p) as [[| |] |].
Qed.

(** When every line has the separator, the whole of [md5sums] is read. *)
Lemma load_md5sums_wellformed lines : forall d,
  Forall (fun line => split_once "  " (strip line) <> None) lines ->
  exists d', load_md5sums lines d = (Ok tt, d').
Proof.
  induction lines as [| line rest IH]; intros d Hall; [now exists d |].
  inversion Hall as [| ? ? Hline Hrest]; subst. simpl.
  destruct (split_once "  " (strip line)) as [[hashsum path] |]; [| contradiction].
  now apply IH.
Qed.

Section Extraction.
Context `{Platform}.

Lemma extract_Ok pkg w p pkg' w' :
  extract pkg w = (Ok p, pkg', w') ->
  mkdtemp (fs w) = Some p /\
  temp_dir pkg' = Some p /\
  exists text,
    read_text (fs w') (p ++ ["metadata.json"]) = Ok text /\
    json_load text = Some (metadata pkg').
Proof.
  unfold extract.
  destruct (mkdtemp (fs w)) as [tmp |]; [| discriminate].
  destruct (write_node tmp (Dir []) w) as [[[] | e] w1]; [| discriminate].
  destruct (bind _ _ w1) as [[[] | e] w2]; [| discriminate].
  destruct (negb (fs_exists (fs w2) (tmp ++ ["metadata.json"]))); [discriminate |].
  destruct (read_text (fs w2) (tmp ++ ["metadata.json"])) as [text | e] eqn:Er;
    [| discriminate].
  destruct (json_load text) as [j |] eqn:Ej; [| discriminate].
  destruct (fs_exists (fs w2) (tmp ++ ["md5sums"])).
  - destruct (read_text (fs w2) (tmp ++ ["md5sums"])) as [sums | e]; [| discriminate].
    destruct (load_md5sums _ _) as [[[] | e] d]; [| discriminate].
    intros [= <- <- <-]. simpl. eauto.
  - intros [= <- <- <-]. simpl. eauto.
Qed.

(** C9. When the archive unpacks and holds no [metadata.json], [extract]
    raises [ValidationError].  When the archive unpacks, [metadata.json] is
    there and parses, and [md5sums] is missing or has the separator on every
    line, [extract] returns: it returns the workspace path, which the package
    object now holds, and the metadata of the package are the parsed
    contents of [metadata.json].  And whenever [extract] returns, it has
    returned the workspace path and populated the metadata in that way. *)
Theorem extract_contract (pkg : package) (w : world) :
  (forall tmp w1 members w2,
     mkdtemp (fs w) = Some tmp ->
     write_node tmp (Dir []) w = (Ok tt, w1) ->
     tarfile_open (fs w1) (pkg_path pkg) = Ok members ->
     extractall tmp members w1 = (Ok tt, w2) ->
     (forall rel n, In (rel, n) members -> List.head rel <> Some "metadata.json") ->
     extract pkg w =
       (Raise (Exn ValidationError "metadata.json not found in package"),
        set_temp_dir pkg tmp, w2)) /\
  (forall tmp w1 members w2 text j,
     mkdtemp (fs w) = Some tmp ->
     write_node tmp (Dir []) w = (Ok tt, w1) ->
     tarfile_open (fs w1) (pkg_path pkg) = Ok members ->
     extractall tmp members w1 = (Ok tt, w2) ->
     read_text (fs w2) (tmp ++ ["metadata.json"]) = Ok text ->
     json_load text = Some j ->
     (fs_exists (fs w2) (tmp ++ ["md5sums"]) = false \/
      exists sums,
        read_text (fs w2) (tmp ++ ["md5sums"]) = Ok sums /\
        Forall (fun line => split_once "  " (strip line) <> None) (iter_lines sums)) ->
     exists pkg',
       extract pkg w = (Ok tmp, pkg', w2) /\
       temp_dir pkg' = Some tmp /\
       metadata pkg' = j /\
       pkg_path pkg' = pkg_path pkg) /\
  (forall p pkg' w',
     extract pkg w = (Ok p, pkg', w') ->
     mkdtemp (fs w) = Some p /\
     temp_dir pkg' = Some p /\
     exists text,
       read_text (fs w') (p ++ ["metadata.json"]) = Ok text /\
       json_load text = Some (metadata pkg')).
Proof.
  split; [| split; [| apply extract_Ok]].
  - intros tmp w1 members w2 Hmk Hput Hopen Hunpack Habsent.
    assert (Hnew : fs_get (fs w1) (tmp ++ ["metadata.json"]) = None).
    { unfold write_node in Hput.
      destruct (fs_put (fs w) tmp (Dir [])) as [root1 |] eqn:E; [| discriminate].
      injection Hput as <-. simpl. now rewrite (fs_get_put _ _ _ _ _ E). }
    pose proof (extractall_absent tmp "metadata.json" members w1 w2 Habsent Hnew Hunpack)
      as Hnone.
    unfold extract. rewrite Hmk, Hput. unfold bind, lift. simpl pkg_path.
    rewrite Hopen, Hunpack. unfold fs_exists. now rewrite Hnone.
  - intros tmp w1 members w2 text j Hmk Hput Hopen Hunpack Hmeta Hjson Hsums.
    unfold extract. rewrite Hmk, Hput. unfold bind, lift. simpl pkg_path.
    rewrite Hopen, Hunpack.
    rewrite (read_text_exists _ _ _ Hmeta). simpl negb. cbv iota.
    rewrite Hmeta, Hjson.
    destruct Hsums as [Hnone | (sums & Hread & Hall)].
    + rewrite Hnone. eexists. repeat split.
    + rewrite (read_text_exists _ _ _ Hread), Hread.
      destruct (load_md5sums_wellformed _
                  (md5sums (set_metadata (set_temp_dir pkg tmp) j)) Hall) as [d' ->].
      eexists. repeat split.
Qed.

End Extraction.

Lemma extract_contract_witness :
  (exists w2,
     @extract Demo.platform (Package Demo.no_manifest_path) Demo.world0 =
       (Raise (Exn ValidationError "metadata.json not found in package"),
        set_temp_dir (Package Demo.no_manifest_path) ["tmp"; "apginstall-0"], w2)) /\
  (exists pkg' w2,
     @extract Demo.platform (Package Demo.demo_path)
        (snd (emit (log_message "Extracting demo-1.0.apg...") Demo.world0)) =
       (Ok ["tmp"; "apginstall-0"], pkg', w2) /\
     temp_dir pkg' = Some ["tmp"; "apginstall-0"] /\
     metadata pkg' = JObj [("name", JStr "demo"); ("version", JStr "1.0")]).
Proof.
  split.
  - eexists.
    refine (proj1 (@extract_contract Demo.platform (Package Demo.no_manifest_path)
                     Demo.world0)
              ["tmp"; "apginstall-0"] _ [(["data"; "f"], File "abc")] _ _ _ _ _ _).
    + reflexivity.
    + vm_compute. reflexivity.
    + vm_compute. reflexivity.
    + vm_compute. reflexivity.
    + intros rel n [[= <- <-] | []]. discriminate.
  - destruct (proj1 (proj2 (@extract_contract Demo.platform (Package Demo.demo_path)
                              (snd (emit (log_message "Extracting demo-1.0.apg...")
                                         Demo.world0))))
                ["tmp"; "apginstall-0"]
                (snd (write_node ["tmp"; "apginstall-0"] (Dir [])
                        (snd (emit (log_message "Extracting demo-1.0.apg...")
                                   Demo.world0))))
                [(["metadata.json"], File "demo");
                 (["data"; "etc"; "demo.conf"], File "x=1")]
                Demo.demo_world "demo"
                (JObj [("name", JStr "demo"); ("version", JStr "1.0")]))
      as (pkg' & E & Ht & Hm & _).
    + reflexivity.
    + vm_compute. reflexivity.
    + vm_compute. reflexivity.
    + vm_compute. reflexivity.
    + vm_compute. reflexivity.
    + reflexivity.
    + left. vm_compute. reflexivity.
    + exists pkg', Demo.demo_world. auto.
Defined.

(** ** Malformed checksum lists *)

Lemma load_md5sums_malformed lines line :
  In line lines -> split_once "  " (strip line) = None ->
  forall d, exists d', load_md5sums lines d = (Raise unpack_error, d').
Proof.
  induction lines as [| l rest IH]; intros Hin Hbad d; [destruct Hin |].
  simpl. destruct (split_once "  " (strip l)) as [[hashsum path] |] eqn:E.
  - destruct Hin as [-> | Hin]; [congruence |]. now apply IH.
  - now exists d.
Qed.

(** A blank line is such a line. *)
Example blank_line_has_no_separator :
  split_once "  " (strip (String LF "")) = None /\
  split_once "  " (strip "d41d8cd98f00b204e9800998ecf8427e data/f") = None /\
  split_once "  " (strip "d41d8cd98f00b204e9800998ecf8427e  data/f")
    = Some ("d41d8cd98f00b204e9800998ecf8427e", "data/f").
Proof. repeat split; reflexivity. Qed.

Section Malformed.
Context `{Platform}.

Lemma extract_raises_install_raises p w e pkg w1 :
  extract (Package p)
          (snd (emit (log_message ("Extracting " ++ path_name p ++ "...")) w))
    = (Raise e, pkg, w1) ->
  exists e', fst (install_package p w) = Raise e'.
Proof.
  intros Hx. unfold install_package, install_package_obj, install_try. rewrite Hx.
  destruct (install_except_raises pkg e w1) as [e' E'].
  destruct (install_except pkg e w1) as [r' w3]. simpl in E'. subst r'.
  destruct (cleanup pkg w3) as [[[] | e0] w4]; simpl; eauto.
Qed.

(** C10 (as the code has it). When the archive unpacks, [metadata.json] is
    read and parsed, and the [md5sums] file has a line that, once stripped,
    does not contain the two-space separator, [extract] raises a plain
    [ValueError], which is not a [PackageError]; [install_package] then
    raises, and the turn of the package in [run] catches the error: it does
    not raise, leaves the success counter unchanged and writes one failure
    record. *)
Theorem malformed_md5sums_line (total i : nat) (p : path) (s : nat) (w : world)
    (tmp : path) (w1 w2 : world) (members : list (path * node))
    (text sums line : string) (j : json) :
  let w0 := snd (emit (log_message ("Extracting " ++ path_name p ++ "...")) w) in
  mkdtemp (fs w0) = Some tmp ->
  write_node tmp (Dir []) w0 = (Ok tt, w1) ->
  tarfile_open (fs w1) p = Ok members ->
  extractall tmp members w1 = (Ok tt, w2) ->
  read_text (fs w2) (tmp ++ ["metadata.json"]) = Ok text ->
  json_load text = Some j ->
  read_text (fs w2) (tmp ++ ["md5sums"]) = Ok sums ->
  In line (iter_lines sums) ->
  split_once "  " (strip line) = None ->
  (exists pkg', extract (Package p) w0 = (Raise unpack_error, pkg', w2)) /\
  exn_cls unpack_error = ValueError /\
  is_PackageError unpack_error = false /\
  is_failure (fst (install_package p w)) = true /\
  (exists w', run_one total i p s w = (Ok s, w')) /\
  List.length (failure_details (emitted_by (run_one total i p s) w)) = 1%nat.
Proof.
  intros w0 Hmk Hput Hopen Hunpack Hmeta Hjson Hsums Hin Hbad.
  assert (Hx : exists pkg', extract (Package p) w0 = (Raise unpack_error, pkg', w2)).
  { unfold extract. rewrite Hmk, Hput. unfold bind, lift. simpl pkg_path.
    rewrite Hopen, Hunpack.
    rewrite (read_text_exists _ _ _ Hmeta). simpl negb. cbv iota.
    rewrite Hmeta, Hjson, (read_text_exists _ _ _ Hsums), Hsums.
    destruct (load_md5sums_malformed _ _ Hin Hbad
                (md5sums (set_metadata (set_temp_dir (Package p) tmp) j))) as [d' ->].
    eauto. }
  split; [exact Hx |]. split; [reflexivity |]. split; [reflexivity |].
  destruct Hx as [pkg' Hx].
  destruct (extract_raises_install_raises p w _ _ _ Hx) as [e' He'].
  split; [now rewrite He' |].
  destruct (run_one_spec total i p s w) as (w' & sent & inst & E1 & Ev1 & D1 & _).
  rewrite He' in E1, D1. split; [now exists w' |].
  rewrite (emitted_by_app (run_one total i p s) w sent) by now rewrite E1.
  now rewrite D1.
Qed.

End Malformed.

Lemma malformed_md5sums_line_witness :
  is_failure (fst (@install_package Demo.platform Demo.blank_path Demo.world0)) = true.
Proof.
  eapply (@malformed_md5sums_line Demo.platform 1 1 Demo.blank_path 0 Demo.world0
            ["tmp"; "apginstall-0"] _ _ _ _ _ (String LF "")).
  - reflexivity.
  - vm_compute. reflexivity.
  - vm_compute. reflexivity.
  - vm_compute. reflexivity.
  - vm_compute. reflexivity.
  - vm_compute. reflexivity.
  - vm_compute. reflexivity.
  - vm_compute. right. left. reflexivity.
  - vm_compute. reflexivity.
Defined.

(** C10 as stated fails: this archive has a blank line in [md5sums] and no
    [metadata.json].  The manifest is looked for first, so extraction stops
    with [ValidationError], a [PackageError], and [md5sums] is never read. *)
Lemma malformed_line_is_not_reached :
  let r := @extract Demo.platform (Package Demo.bare_path) Demo.shelf in
  read_text (fs (snd r)) ["tmp"; "apginstall-0"; "md5sums"]
    = Ok (String.append "abc  data/f" (String LF (String LF ""))) /\
  In (String LF "")
     (iter_lines (String.append "abc  data/f" (String LF (String LF "")))) /\
  split_once "  " (strip (String LF "")) = None /\
  fst (fst r) = Raise (Exn ValidationError "metadata.json not found in package") /\
  is_PackageError (Exn ValidationError "metadata.json not found in package") = true /\
  fst (@install_package Demo.platform Demo.bare_path Demo.shelf)
    = Raise (Exn ValidationError "metadata.json not found in package").
Proof.
  repeat split; try (vm_compute; reflexivity).
  vm_compute. right. left. reflexivity.
Qed.

(** ** Checksum verification *)


Section Verification.
Context `{Platform}.





End Verification.



(** ** The backup step *)




Section Backup.
Context `{Platform}.


End Backup.

(** C7 (where the code departs from it). The package ships the regular file
    [data/opt]; below the system root [/opt] is a directory that holds
    [keep].  The backup archive is created under the expected name, but it
    holds the directory [opt] and the live file [opt/keep], which is not a
    file of the payload tree and is not overwritten by the installation
    (the payload file ends up as [/opt/opt]). *)
Theorem create_backup_archives_live_directory :
  temp_dir Demo.opt_pkg = Some ["tmp"; "apginstall-0"] /\
  option_map rglob (fs_get (fs Demo.opt_world) ["tmp"; "apginstall-0"; "data"])
    = Some [(["opt"], File "new")] /\
  fs_get (fs Demo.opt_world) ["opt"] = Some (Dir [("keep", File "precious")]) /\
  fst (@create_backup Demo.platform Demo.opt_pkg Demo.opt_world) = Ok tt /\
  fs_get (fs (snd (@create_backup Demo.platform Demo.opt_pkg Demo.opt_world)))
         (backup_dir ++ ["optpkg_20250121_132110.tar.xz"])
    = Some (Archive [(["opt"], Dir []); (["opt"; "keep"], File "precious")]) /\
  fs_get (fs (snd (@install_package Demo.platform Demo.opt_path Demo.world0))) ["opt"]
    = Some (Dir [("keep", File "precious"); ("opt", File "new")]).
Proof. repeat split; vm_compute; reflexivity. Qed.

(** * Further properties of the installer *)

(** ** States are never skipped *)

Section Stages.
Context `{Platform}.

(** The percentages one package delivers are an initial segment of
    10, 20, 30, 40, 50, 70, 80, 90, the whole of it when the package is
    installed: no state is reported before the ones that precede it. *)
Theorem install_package_reports_stages_in_order (p : path) (w : world) :
  match fst (install_package p w) with
  | Ok _ => percentages (emitted_by (install_package p) w) = [10; 20; 30; 40; 50; 70; 80; 90]
  | Raise _ =>
      percentages (emitted_by (install_package p) w)
        `prefix_of` [10; 20; 30; 40; 50; 70; 80; 90]
  end.
Proof.
  destruct (install_package p w) as [r w'] eqn:E.
  destruct (traces_install_package p _ _ _ E) as (new & Ev & _ & P).
  rewrite (emitted_by_app (install_package p) w new) by now rewrite E.
  exact P.
Qed.

Lemma percentages_nil_r l : l ++ percentages [] = l.
Proof. apply app_nil_r. Qed.

Lemma run_loop_percentages total packages : forall i s w,
  packages <> [] ->
  exists l,
    percentages (emitted_by (run_loop total i packages s) w) =
      l ++ [batch_percent (i + List.length packages - 1) total].
Proof.
  induction packages as [| p rest IH]; intros i s w Hne; [contradiction |].
  destruct (run_one_spec total i p s w) as (w1 & n1 & inst & E1 & Ev1 & _ & _ & P1 & _).
  destruct (run_loop_spec total rest (S i) (counted (fst (install_package p w)) s) w1)
    as (w2 & n2 & E2 & Ev2 & _).
  assert (Erun : run_loop total i (p :: rest) s w =
                 run_loop total (S i) rest (counted (fst (install_package p w)) s) w1).
  { simpl run_loop. unfold bind. now rewrite E1. }
  rewrite (emitted_by_app (run_loop total i (p :: rest) s) w (n1 ++ n2))
    by now rewrite Erun, E2, app_assoc; simpl; rewrite Ev2, Ev1.
  rewrite percentages_app, P1.
  destruct rest as [| q rest].
  - injection E2 as _ <-. assert (n2 = []) as ->.
    { apply (app_inv_head (events w1)). now rewrite app_nil_r. }
    exists inst. rewrite percentages_nil_r.
    replace (i + List.length [p] - 1)%nat with i by (simpl; lia). reflexivity.
  - destruct (IH (S i) (counted (fst (install_package p w)) s) w1) as (l & Pl);
      [discriminate |].
    rewrite (emitted_by_app _ w1 n2) in Pl by now rewrite E2.
    rewrite Pl. exists ((inst ++ [batch_percent i total]) ++ l).
    replace (i + List.length (p :: q :: rest) - 1)%nat
      with (S i + List.length (q :: rest) - 1)%nat by (simpl; lia).
    now rewrite <- !app_assoc.
Qed.

(** After the last package of a batch that is not empty the percentage
    delivered is 100, whatever happened to the packages. *)
Theorem run_reaches_100 (packages : list path) (w : world) :
  packages <> [] ->
  List.last (percentages (emitted_by (run packages) w)) 0 = 100.
Proof.
  intros Hne.
  destruct (run_loop_percentages (List.length packages) packages 1%nat 0%nat w Hne)
    as (l & Pl).
  destruct (run_loop_spec (List.length packages) packages 1%nat 0%nat w)
    as (w1 & n1 & E & Ev & _).
  rewrite (emitted_by_app _ w n1) in Pl by now rewrite E.
  assert (Es : exists sig, events (snd (run packages w)) = events w1 ++ [sig] /\
                           percentages [sig] = []).
  { unfold run, try_except, bind. rewrite E.
    destruct (_ =? _)%nat; simpl; eexists; split; reflexivity. }
  destruct Es as (sig & Es & Ps).
  rewrite (emitted_by_app (run packages) w (n1 ++ [sig]))
    by now rewrite Es, Ev, app_assoc.
  rewrite percentages_app, Ps, app_nil_r, Pl, List.last_last.
  replace (1 + List.length packages - 1)%nat with (List.length packages) by lia.
  apply batch_percent_last. destruct packages; [contradiction | simpl; lia].
Qed.

End Stages.

Lemma run_reaches_100_witness :
  List.last (percentages (emitted_by
     (@run Demo.platform [Demo.blank_path; Demo.demo_path; Demo.script_path]) Demo.world0)) 0
  = 100.
Proof. apply (@run_reaches_100 Demo.platform). discriminate. Defined.

(** ** When verification accepts *)

Section Acceptance.
Context `{Platform}.



(** A package without [md5sums], or with an empty one, is extracted with an
    empty manifest, and verification then returns [True] without a word. *)
Theorem missing_md5sums_skips_verification
    (pkg pkg' : package) (tmp : path) (w w' : world) :
  md5sums pkg = [] ->
  extract pkg w = (Ok tmp, pkg', w') ->
  fs_exists (fs w') (tmp ++ ["md5sums"]) = false \/
  read_text (fs w') (tmp ++ ["md5sums"]) = Ok "" ->
  md5sums pkg' = [] /\ forall w0, verify_checksums pkg' w0 = (Ok true, w0).
Proof.
  intros Hm Hx Habs.
  assert (Hm' : md5sums pkg' = []).
  { revert Hx. unfold extract.
    destruct (mkdtemp (fs w)) as [tmp0 |]; [| discriminate].
    destruct (write_node tmp0 (Dir []) w) as [[[] | e] w1]; [| discriminate].
    destruct (bind _ _ w1) as [[[] | e] w2]; [| discriminate].
    destruct (negb (fs_exists (fs w2) (tmp0 ++ ["metadata.json"]))); [discriminate |].
    destruct (read_text (fs w2) (tmp0 ++ ["metadata.json"])) as [text | e];
      [| discriminate].
    destruct (json_load text) as [j |]; [| discriminate].
    destruct (fs_exists (fs w2) (tmp0 ++ ["md5sums"])) eqn:Ee.
    - destruct (read_text (fs w2) (tmp0 ++ ["md5sums"])) as [sums | e] eqn:Er;
        [| discriminate].
      destruct (load_md5sums _ _) as [[[] | e] d] eqn:El; [| discriminate].
      intros [= <- <- <-]. destruct Habs as [Habs | Habs]; [congruence |].
      rewrite Er in Habs. injection Habs as ->. simpl in El.
      injection El as <-. exact Hm.
    - intros [= <- <- <-]. exact Hm. }
  split; [exact Hm' |]. intros w0. unfold verify_checksums. now rewrite Hm'.
Qed.

End Acceptance.


(** The entry [other/../data/f] is accepted because the package ships a
    directory [other]; through a directory that is not there, the same file
    is not found. *)
Example dangling_entry_is_rejected :
  md5sums Demo.dangling_pkg = [("nowhere/../data/f", "abc")] /\
  fs_get (fs Demo.dangling_world) ["tmp"; "apginstall-0"; "data"; "f"] = Some (File "abc") /\
  fst (@verify_checksums Demo.platform Demo.dangling_pkg Demo.dangling_world)
    = Raise (Exn ValidationError "File not found: nowhere/../data/f").
Proof. repeat split; vm_compute; reflexivity. Qed.

Lemma missing_md5sums_skips_verification_witness :
  md5sums Demo.opt_pkg = [].
Proof.
  apply (@missing_md5sums_skips_verification Demo.platform
           (Package Demo.opt_path) Demo.opt_pkg ["tmp"; "apginstall-0"]
           (snd (emit (log_message "Extracting opt.apg...") Demo.world0))
           Demo.opt_world).
  - reflexivity.
  - vm_compute. reflexivity.
  - left. vm_compute. reflexivity.
Defined.

(** ** Dependencies are reported, never enforced *)

Section DependencyReport.
Context `{Platform}.

Lemma report_dependencies_lines deps w :
  forallb reportable deps = true ->
  report_dependencies deps w =
    (Ok tt, World (fs w)
                  (events w ++ List.map (fun dep => log_message (dependency_line dep)) deps)
                  (clock w)).
Proof.
  revert w. induction deps as [| dep rest IH]; intros w Hall.
  - simpl. rewrite app_nil_r. now destruct w.
  - simpl in Hall. apply andb_true_iff in Hall as [Hdep Hrest].
    destruct dep as [| | | | | f]; try discriminate.
    simpl in Hdep. apply andb_true_iff in Hdep as [Hn Hv].
    apply bool_decide_eq_true in Hn as [name Hn], Hv as [version Hv].
    cbn [report_dependencies]. unfold bind, lift, emit, py_getitem, py_get, of_option.
    rewrite Hn, Hv. rewrite IH by exact Hrest.
    cbn [fs events clock List.map dependency_line]. rewrite Hn, Hv, <- app_assoc.
    reflexivity.
Qed.

(** A manifest that declares no dependencies passes silently; one that
    declares a list of dependencies, each with a name and a version, passes
    after one line per dependency, in the order declared, the condition
    defaulting to [>=].  The file system is not touched. *)
Theorem verify_dependencies_reports (pkg : package) (d : list (string * json))
    (w : world) :
  metadata pkg = JObj d ->
  match assoc "dependencies" d with
  | None => verify_dependencies pkg w = (Ok true, w)
  | Some (JList deps) =>
      forallb reportable deps = true ->
      verify_dependencies pkg w =
        (Ok true,
         World (fs w)
               (events w ++ log_message "Checking dependencies..." ::
                  List.map (fun dep => log_message (dependency_line dep)) deps)
               (clock w))
  | Some _ => True
  end.
Proof.
  intros Hm. unfold verify_dependencies, bind, lift, py_contains, py_getitem, py_iter.
  rewrite Hm. destruct (assoc "dependencies" d) as [[| | | | deps |] |] eqn:Ed; auto.
  - intros Hall. rewrite bool_decide_eq_true_2 by eauto. cbn [negb of_option].
    unfold emit at 1. rewrite report_dependencies_lines by exact Hall.
    cbn [fs events clock]. now rewrite <- app_assoc.
Qed.

(** Whatever the manifest declares, checking dependencies never returns
    [False] and never changes the file system.  It raises only on a manifest
    of the wrong shape (one that is not an object, or whose dependencies are
    not a list of objects with a name and a version), and then with the
    error of the failed lookup, a [KeyError], [TypeError] or
    [AttributeError]: never a [PackageError], so never a [DependencyError].
    A dependency that is not installed does not stop the installation. *)
Theorem verify_dependencies_never_rejects (pkg : package) (w : world) :
  fs (snd (verify_dependencies pkg w)) = fs w /\
  match fst (verify_dependencies pkg w) with
  | Ok b => b = true
  | Raise e =>
      (exn_cls e = KeyError \/ exn_cls e = TypeError \/ exn_cls e = AttributeError) /\
      is_PackageError e = false /\
      well_declared (metadata pkg) = false
  end.
Proof.
  destruct (verify_dependencies_checked pkg w) as [Hf Hr]. split; [exact Hf |].
  destruct (fst (verify_dependencies pkg w)) as [b | e]; [exact Hr |].
  destruct Hr as [Hl Hw]. split; [| split; [| exact Hw]].
  - unfold lookup_error in Hl. destruct (exn_cls e); try discriminate; auto.
  - now apply lookup_error_not_PackageError.
Qed.

End DependencyReport.

Lemma verify_dependencies_reports_witness :
  @verify_dependencies Demo.platform
     {| pkg_path := Demo.demo_path; temp_dir := None;
        metadata := JObj [("name", JStr "demo");
                          ("dependencies",
                           JList [JObj [("name", JStr "libfoo"); ("version", JStr "2.1")];
                                  JObj [("name", JStr "bar"); ("version", JStr "1.0");
                                        ("condition", JStr "==")]])];
        md5sums := [] |}
     Demo.world0
  = (Ok true,
     World (fs Demo.world0)
           [log_message "Checking dependencies...";
            log_message "Required: libfoo >= 2.1";
            log_message "Required: bar == 1.0"]
           0).
Proof.
  apply (@verify_dependencies_reports Demo.platform
           {| pkg_path := Demo.demo_path; temp_dir := None;
              metadata := JObj [("name", JStr "demo");
                                ("dependencies",
                                 JList [JObj [("name", JStr "libfoo");
                                              ("version", JStr "2.1")];
                                        JObj [("name", JStr "bar"); ("version", JStr "1.0");
                                              ("condition", JStr "==")]])];
              md5sums := [] |}
           [("name", JStr "demo");
            ("dependencies",
             JList [JObj [("name", JStr "libfoo"); ("version", JStr "2.1")];
                    JObj [("name", JStr "bar"); ("version", JStr "1.0");
                          ("condition", JStr "==")]])]
           Demo.world0 eq_refl).
  reflexivity.
Defined.

(** ** Deployment deletes nothing *)

Section NeverDeletes.
Context `{Platform}.

(** Copying the payload onto the target, whether it completes or stops at an
    I/O error, deletes no path and replaces no directory by a file or file
    by a directory: files are only added or overwritten by files. *)
Theorem copy_files_never_deletes (source_dir target_dir : path) (w : world) :
  keeps (fs w) (fs (snd (copy_files source_dir target_dir w))).
Proof.
  revert w. change (keeping (copy_files source_dir target_dir)).
  unfold copy_files. apply keeping_bind; [apply keeping_get_fs | intros root].
  destruct (fs_get root source_dir); [| apply keeping_ret].
  apply keeping_bind; [apply keeping_emit | intros _; apply keeping_copy_loop].
Qed.


End NeverDeletes.

(** ** The directories of the installer *)

Lemma assoc_set_same {A} k (v : A) d : assoc k d = Some v -> assoc_set k v d = d.
Proof.
  induction d as [| [k' v'] d IH]; [discriminate |]. simpl.
  destruct (String.eqb_spec k k') as [<- | Hne].
  - now intros [= ->].
  - intros Hd. now rewrite IH.
Qed.

Lemma fs_mkdir_p_dir root p root' :
  fs_mkdir_p root p = Some root' -> exists es, fs_get root' p = Some (Dir es).
Proof.
  revert root root'. induction p as [| c p IH]; intros root root' Hmk.
  - destruct root; simpl in Hmk; try discriminate. injection Hmk as <-. simpl. eauto.
  - destruct root as [t | ms | es]; try discriminate.
    rewrite fs_mkdir_p_cons in Hmk.
    destruct (fs_mkdir_p (default (Dir []) (assoc c es)) p) as [child' |] eqn:E;
      [| discriminate].
    injection Hmk as <-. rewrite fs_get_cons, assoc_set_eq. eauto.
Qed.

(** Where the directory exists, [mkdir(parents=True, exist_ok=True)] changes
    nothing. *)
Lemma fs_mkdir_p_existing root p es :
  fs_get root p = Some (Dir es) -> fs_mkdir_p root p = Some root.
Proof.
  revert root. induction p as [| c p IH]; intros root Hg.
  - injection Hg as ->. reflexivity.
  - destruct root as [t | ms | es0]; try discriminate.
    rewrite fs_get_cons in Hg. rewrite fs_mkdir_p_cons.
    destruct (assoc c es0) as [child |] eqn:Ec; [| discriminate].
    simpl. rewrite (IH child Hg). now rewrite assoc_set_same.
Qed.

(** [Installer()]: when the constructor returns, the backup and the log
    directory exist as directories, nothing that existed before was deleted,
    and constructing a second installer changes nothing. *)
Theorem Installer_init_creates_directories (w w' : world) :
  Installer_init w = (Ok tt, w') ->
  (exists es, fs_get (fs w') backup_dir = Some (Dir es)) /\
  (exists es, fs_get (fs w') log_dir = Some (Dir es)) /\
  keeps (fs w) (fs w') /\
  events w' = events w /\
  Installer_init w' = (Ok tt, w').
Proof.
  unfold Installer_init, bind, make_dirs.
  destruct (fs_mkdir_p (fs w) backup_dir) as [root1 |] eqn:E1; [| discriminate].
  cbn [fs events clock].
  destruct (fs_mkdir_p root1 log_dir) as [root2 |] eqn:E2; [| discriminate].
  intros [= <-]. cbn [fs events clock].
  destruct (fs_mkdir_p_dir _ _ _ E1) as [es1 H1].
  destruct (fs_mkdir_p_dir _ _ _ E2) as [es2 H2].
  destruct (fs_mkdir_p_keeps _ _ _ E2 _ _ H1) as (n' & H1' & Hd).
  destruct n' as [| | es1']; try discriminate Hd.
  split; [eauto |]. split; [eauto |].
  split; [eapply keeps_trans; eapply fs_mkdir_p_keeps; eauto |].
  split; [reflexivity |].
  rewrite (fs_mkdir_p_existing _ _ _ H1'). cbn [fs events clock].
  now rewrite (fs_mkdir_p_existing _ _ _ H2).
Qed.

Lemma Installer_init_creates_directories_witness :
  exists es,
    fs_get (fs (snd (Installer_init (World (Dir [("var", Dir [])]) [] 0)))) backup_dir
      = Some (Dir es).
Proof.
  eapply (Installer_init_creates_directories (World (Dir [("var", Dir [])]) [] 0)).
  vm_compute. reflexivity.
Defined.

(** ** Cleanup removes the workspace and nothing else *)

Lemma assoc_del_ne {A} k k' (d : list (string * A)) :
  k <> k' -> assoc k' (assoc_del k d) = assoc k' d.
Proof.
  intros Hne. unfold assoc_del. induction d as [| [k0 v0] d IH]; [reflexivity |].
  simpl. destruct (String.eqb_spec k k0) as [<- | Hk]; simpl.
  - destruct (String.eqb_spec k' k); [congruence | exact IH].
  - now rewrite IH.
Qed.

(** Removing [p] leaves every path that is not [p] or below it: a regular
    file as it was, a directory as a directory, a missing path missing. *)
Lemma fs_remove_other root p q :
  ~ p `prefix_of` q ->
  match fs_get root q with
  | Some n => exists n', fs_get (fs_remove root p) q = Some n' /\
                         is_dir n' = is_dir n /\ (is_dir n = false -> n' = n)
  | None => fs_get (fs_remove root p) q = None
  end.
Proof.
  revert root q. induction p as [| c p IH]; intros root q Hpre.
  - exfalso. apply Hpre. now exists q.
  - assert (Hsame : fs_remove root (c :: p) = root ->
              match fs_get root q with
              | Some n => exists n', fs_get (fs_remove root (c :: p)) q = Some n' /\
                                     is_dir n' = is_dir n /\ (is_dir n = false -> n' = n)
              | None => fs_get (fs_remove root (c :: p)) q = None
              end).
    { intros ->. destruct (fs_get root q); eauto. }
    destruct root as [t | ms | es]; try (apply Hsame; now destruct p).
    destruct q as [| d q].
    + simpl fs_get at 1. destruct p as [| c' p].
      * simpl. eexists. repeat split; try reflexivity; discriminate.
      * rewrite fs_remove_cons. destruct (assoc c es); simpl;
          eexists; repeat split; try reflexivity; discriminate.
    + destruct (String.eqb_spec c d) as [<- | Hne].
      * destruct p as [| c' p]; [exfalso; apply Hpre; now exists q |].
        rewrite fs_remove_cons, fs_get_cons.
        destruct (assoc c es) as [child |] eqn:Ec.
        -- rewrite fs_get_cons, assoc_set_eq. apply IH.
           intros [k Hk]. apply Hpre. exists k. simpl. now rewrite Hk.
        -- rewrite fs_get_cons, Ec. reflexivity.
      * assert (Hget : fs_get (fs_remove (Dir es) (c :: p)) (d :: q) =
                       fs_get (Dir es) (d :: q)).
        { destruct p as [| c' p].
          - simpl fs_remove. rewrite !fs_get_cons. now rewrite assoc_del_ne.
          - rewrite fs_remove_cons. destruct (assoc c es); [| reflexivity].
            rewrite !fs_get_cons. now rewrite assoc_set_ne. }
        rewrite Hget. destruct (fs_get (Dir es) (d :: q)); eauto.
Qed.

(** [cleanup] touches only the workspace: any other path that held a
    regular file still holds the same file, a directory is still a
    directory, and nothing appears. *)
Theorem cleanup_leaves_the_rest (pkg : package) (tmp q : path) (w : world) :
  temp_dir pkg = Some tmp ->
  ~ tmp `prefix_of` q ->
  events (snd (cleanup pkg w)) = events w /\
  match fs_get (fs w) q with
  | Some n => exists n', fs_get (fs (snd (cleanup pkg w))) q = Some n' /\
                         is_dir n' = is_dir n /\ (is_dir n = false -> n' = n)
  | None => fs_get (fs (snd (cleanup pkg w))) q = None
  end.
Proof.
  intros Ht Hpre. split; [apply cleanup_events |].
  unfold cleanup. rewrite Ht.
  destruct (fs_get (fs w) tmp) as [[t | ms | es] |] eqn:E; cbn [snd fs].
  - destruct (fs_get (fs w) q); eauto.
  - destruct (fs_get (fs w) q); eauto.
  - now apply fs_remove_other.
  - destruct (fs_get (fs w) q); eauto.
Qed.

Lemma cleanup_leaves_the_rest_witness :
  exists n',
    fs_get (fs (snd (cleanup Demo.opt_pkg Demo.opt_world))) ["opt"; "keep"] = Some n' /\
    is_dir n' = false /\ (false = false -> n' = File "precious").
Proof.
  apply (cleanup_leaves_the_rest Demo.opt_pkg ["tmp"; "apginstall-0"] ["opt"; "keep"]
           Demo.opt_world).
  - reflexivity.
  - intros [k Hk]. discriminate Hk.
Defined.

(** ** Failures before and around the manifest *)

Section ManifestFailures.
Context `{Platform}.

Lemma install_package_extract_raises p w e pkg w1 s tmp es :
  extract (Package p)
          (snd (emit (log_message ("Extracting " ++ path_name p ++ "...")) w))
    = (Raise e, pkg, w1) ->
  package_str pkg = Ok s ->
  temp_dir pkg = Some tmp ->
  fs_get (fs w1) tmp = Some (Dir es) ->
  install_package p w =
    (Raise e,
     snd (cleanup pkg
            (World (fs w1)
                   (events w1 ++
                      [log_message ("Failed to install " ++ s ++ ": " ++ exn_str e)])
                   (clock w1)))).
Proof.
  intros Hx Hs Ht Hd. unfold install_package, install_package_obj, install_try.
  rewrite Hx. unfold install_except, bind, lift, emit. rewrite Hs.
  rewrite (cleanup_dir pkg
             (World (fs w1)
                    (events w1 ++
                       [log_message ("Failed to install " ++ s ++ ": " ++ exn_str e)])
                    (clock w1)) tmp es Ht Hd).
  reflexivity.
Qed.

(** When the package file cannot be opened as an archive (it is missing, a
    directory, or not a [.tar.xz]), [install_package] raises that very
    error, delivers no percentage, reports the package as
    [Unknown Unknown], since no manifest was read, and removes the workspace
    it had created. *)
Theorem unreadable_archive_is_reported_unknown (p tmp : path) (w w1 : world) (e : exn) :
  mkdtemp (fs w) = Some tmp ->
  write_node tmp (Dir [])
             (snd (emit (log_message ("Extracting " ++ path_name p ++ "...")) w))
    = (Ok tt, w1) ->
  tarfile_open (fs w1) p = Raise e ->
  fst (install_package p w) = Raise e /\
  emitted_by (install_package p) w =
    [log_message ("Extracting " ++ path_name p ++ "...");
     log_message ("Failed to install Unknown Unknown: " ++ exn_str e)] /\
  fs_exists (fs (snd (install_package p w))) tmp = false.
Proof.
  intros Hmk Hput Hopen.
  assert (Hx : extract (Package p)
                 (snd (emit (log_message ("Extracting " ++ path_name p ++ "...")) w))
               = (Raise e, set_temp_dir (Package p) tmp, w1)).
  { unfold extract. cbn [emit snd fs]. rewrite Hmk. cbn [emit snd] in Hput.
    rewrite Hput. unfold bind, lift. simpl pkg_path. now rewrite Hopen. }
  pose proof (write_node_events tmp (Dir [])
                (snd (emit (log_message ("Extracting " ++ path_name p ++ "...")) w)))
    as Ev1.
  rewrite Hput in Ev1. cbn [snd emit events] in Ev1.
  assert (Hne : tmp <> []).
  { intros ->. unfold write_node in Hput. now rewrite fs_put_root in Hput. }
  assert (Hd : fs_get (fs w1) tmp = Some (Dir [])).
  { unfold write_node in Hput. cbn [emit snd fs] in Hput.
    destruct (fs_put (fs w) tmp (Dir [])) as [root1 |] eqn:E; [| discriminate].
    injection Hput as <-. cbn [fs].
    pose proof (fs_get_put _ _ _ _ [] E) as G. now rewrite app_nil_r in G. }
  rewrite (install_package_extract_raises p w e _ w1 "Unknown Unknown" tmp [] Hx
             eq_refl eq_refl Hd).
  cbn [fst snd]. split; [reflexivity |]. split.
  - apply emitted_by_app.
    rewrite (install_package_extract_raises p w e _ w1 "Unknown Unknown" tmp [] Hx
               eq_refl eq_refl Hd).
    cbn [snd]. rewrite cleanup_events. cbn [events]. rewrite Ev1.
    now rewrite <- app_assoc.
  - apply cleanup_removes; [reflexivity | exact Hne |].
    cbn [fs]. unfold fs_is_file. now rewrite Hd.
Qed.

End ManifestFailures.

Lemma unreadable_archive_is_reported_unknown_witness :
  fst (@install_package Demo.platform ["root"; "missing.apg"] Demo.world0)
    = Raise (Exn FileNotFoundError "No such file or directory: /root/missing.apg").
Proof.
  eapply (@unreadable_archive_is_reported_unknown Demo.platform ["root"; "missing.apg"]
            ["tmp"; "apginstall-0"] Demo.world0).
  - reflexivity.
  - vm_compute. reflexivity.
  - vm_compute. reflexivity.
Defined.

(** ** A manifest without a name *)

Lemma fails_quietly_after {A B} (c : M A) (k : A -> M B) :
  reads_only c -> (forall a, fails_quietly (k a)) -> fails_quietly (bind c k).
Proof.
  intros Hc Hk w. unfold bind. specialize (Hc w).
  destruct (c w) as [[a | e] w1]; simpl in *; [| now split].
  destruct (Hk a w1) as [Hf Hr]. split; [congruence | exact Hr].
Qed.

Lemma fails_quietly_first {A B} (c : M A) (k : A -> M B) :
  fails_quietly c -> fails_quietly (bind c k).
Proof.
  intros Hc w. unfold bind. destruct (Hc w) as [Hf Hr].
  destruct (c w) as [[a | e] w1]; simpl in *; [discriminate | now split].
Qed.

Section Nameless.
Context `{Platform}.

Lemma nameless_steps_fail pkg e0 w :
  py_getitem (metadata pkg) "name" = Raise e0 ->
  (exists e, fst (install_steps pkg w) = Raise e) /\
  fs (snd (install_steps pkg w)) = fs w.
Proof.
  intros Hname.
  assert (Hq : fails_quietly (install_steps pkg)).
  { unfold install_steps.
    apply fails_quietly_after; [apply reads_only_emit | intros _].
    apply fails_quietly_after; [apply reads_only_verify_checksums | intros _].
    apply fails_quietly_after; [apply reads_only_emit | intros _].
    apply fails_quietly_after; [apply reads_only_verify_dependencies | intros _].
    apply fails_quietly_after; [apply reads_only_emit | intros _].
    apply fails_quietly_first. intros w0. unfold create_backup. rewrite Hname.
    now split. }
  destruct (Hq w) as [Hf Hr]. split; [| exact Hf].
  destruct (fst (install_steps pkg w)); [discriminate | eauto].
Qed.

(** A package whose manifest has no [name] (or is not an object at all) is
    never installed: the steps raise at the backup step at the latest, and
    up to there nothing is written: no backup archive, no script run, no
    file copied. *)
Theorem nameless_manifest_is_never_installed (pkg : package) (e0 : exn) (w : world) :
  py_getitem (metadata pkg) "name" = Raise e0 ->
  is_failure (fst (install_steps pkg w)) = true /\
  fs (snd (install_steps pkg w)) = fs w /\
  percentages (emitted_by (install_steps pkg) w) `prefix_of` [10; 20; 30].
Proof.
  intros Hname.
  assert (Hq : fails_quietly (install_steps pkg)).
  { unfold install_steps.
    apply fails_quietly_after; [apply reads_only_emit | intros _].
    apply fails_quietly_after; [apply reads_only_verify_checksums | intros _].
    apply fails_quietly_after; [apply reads_only_emit | intros _].
    apply fails_quietly_after; [apply reads_only_verify_dependencies | intros _].
    apply fails_quietly_after; [apply reads_only_emit | intros _].
    apply fails_quietly_first. intros w0. unfold create_backup. rewrite Hname.
    now split. }
  destruct (Hq w) as [Hf Hr]. split; [exact Hr |]. split; [exact Hf |].
  assert (T : traces
                (emit (progress_updated 10) ;;
                 verify_checksums pkg ;;
                 emit (progress_updated 20) ;;
                 verify_dependencies pkg ;;
                 emit (progress_updated 30) ;;
                 create_backup pkg) [10; 20; 30]).
  { pose proof traces_verify_checksums. pose proof traces_verify_dependencies.
    pose proof traces_create_backup. traces_auto. }
  assert (Hsame : install_steps pkg w =
                  (let '(r, w') :=
                     (emit (progress_updated 10) ;;
                      verify_checksums pkg ;;
                      emit (progress_updated 20) ;;
                      verify_dependencies pkg ;;
                      emit (progress_updated 30) ;;
                      create_backup pkg) w in
                   (match r with Ok _ => Raise e0 | Raise e => Raise e end, w'))).
  { unfold install_steps, bind. cbn [emit].
    destruct (verify_checksums pkg _) as [[b | e] w1]; [| reflexivity].
    destruct (verify_dependencies pkg _) as [[b' | e] w2]; [| reflexivity].
    unfold create_backup. now rewrite Hname. }
  destruct ((emit (progress_updated 10) ;;
             verify_checksums pkg ;;
             emit (progress_updated 20) ;;
             verify_dependencies pkg ;;
             emit (progress_updated 30) ;;
             create_backup pkg) w) as [r w'] eqn:E.
  destruct (T _ _ _ E) as (new & Ev & _ & P).
  rewrite (emitted_by_app (install_steps pkg) w new) by now rewrite Hsame.
  destruct r; [rewrite P; reflexivity | exact P].
Qed.

(** When the manifest parses to something that is not an object, the error
    that stops the package is masked: [install_package] raises the
    [AttributeError] of [Package.__str__], raised while the failure was
    being logged. *)
Theorem non_object_manifest_masks_the_error (p tmp : path) (pkg : package)
    (w w1 : world) :
  extract (Package p)
          (snd (emit (log_message ("Extracting " ++ path_name p ++ "...")) w))
    = (Ok tmp, pkg, w1) ->
  (forall d, metadata pkg <> JObj d) ->
  fst (install_package p w) =
    Raise (Exn AttributeError "object has no attribute 'get'").
Proof.
  intros Hx Hobj.
  assert (Hname : exists e0, py_getitem (metadata pkg) "name" = Raise e0).
  { destruct (metadata pkg) as [| | | | | d]; simpl; eauto. now destruct (Hobj d). }
  destruct Hname as [e0 Hname].
  destruct (extract_Ok _ _ _ _ _ Hx) as (_ & Ht & text & Hread & _).
  assert (Hd : exists es, fs_get (fs w1) tmp = Some (Dir es)).
  { unfold read_text in Hread.
    destruct (fs_get (fs w1) (tmp ++ ["metadata.json"])) as [n |] eqn:G; [| discriminate].
    eapply fs_get_prefix_dir; [exact G | discriminate]. }
  destruct Hd as [es Hd].
  destruct (nameless_steps_fail pkg e0 w1 Hname) as [[e He] Hfs].
  unfold install_package, install_package_obj, install_try. rewrite Hx.
  destruct (install_steps pkg w1) as [r w2]. cbn [fst snd] in He, Hfs. subst r.
  unfold install_except, bind, lift, package_str.
  assert (Hget : py_get (metadata pkg) "name" (JStr "Unknown") =
                 Raise (Exn AttributeError "object has no attribute 'get'")).
  { destruct (metadata pkg) as [| | | | | d]; try reflexivity. now destruct (Hobj d). }
  rewrite Hget.
  rewrite (cleanup_dir pkg w2 tmp es Ht) by now rewrite Hfs.
  reflexivity.
Qed.

End Nameless.

Lemma nameless_manifest_is_never_installed_witness :
  fs (snd (@install_steps Demo.platform (Package Demo.demo_path) Demo.world0))
    = fs Demo.world0.
Proof.
  apply (@nameless_manifest_is_never_installed Demo.platform (Package Demo.demo_path)
           (Exn KeyError "'name'") Demo.world0).
  reflexivity.
Defined.

Lemma non_object_manifest_masks_the_error_witness :
  fst (@install_package Demo.array_platform Demo.demo_path Demo.world0) =
    Raise (Exn AttributeError "object has no attribute 'get'").
Proof.
  eapply (@non_object_manifest_masks_the_error Demo.array_platform Demo.demo_path).
  - vm_compute. reflexivity.
  - intros d. vm_compute. discriminate.
Defined.

(** ** What the backup holds in the ordinary case *)

Section BackupContents.
Context `{Platform}.


End BackupContents.


(** ** Splitting a line of [md5sums] *)

Lemma append_cons a s x : (String a s ++ x)%string = String a (s ++ x)%string.
Proof. reflexivity. Qed.

Lemma append_nil_l x : ("" ++ x)%string = x.
Proof. reflexivity. Qed.

Lemma prefix_app_self sep rest : String.prefix sep (sep ++ rest) = true.
Proof.
  induction sep as [| a sep IH]; [rewrite append_nil_l; now destruct rest |].
  rewrite append_cons. simpl. destruct (ascii_dec a a); [exact IH | contradiction].
Qed.

Lemma prefix_rejoins sep s :
  String.prefix sep s = true -> s = (sep ++ drop_chars (String.length sep) s)%string.
Proof.
  revert s. induction sep as [| a sep IH]; intros s Hp; [now destruct s |].
  destruct s as [| b s]; [discriminate |]. simpl in Hp.
  destruct (ascii_dec a b) as [<- |]; [| discriminate].
  rewrite append_cons. cbn [String.length drop_chars]. f_equal. now apply IH.
Qed.

Lemma split_once_unfold sep c s :
  split_once sep (String c s) =
  if String.prefix sep (String c s)
  then Some (EmptyString, drop_chars (String.length sep) (String c s))
  else match split_once sep s with
       | Some (a, b) => Some (String c a, b)
       | None => None
       end.
Proof. reflexivity. Qed.

(** [line.split(sep, 1)]: when the separator occurs, the two parts joined by
    the separator give the line back and the split is at the leftmost
    occurrence; it yields a single part only when the separator does not
    occur at all. *)
Theorem split_once_spec (sep s : string) :
  match split_once sep s with
  | Some (a, b) =>
      s = (a ++ sep ++ b)%string /\
      forall a' b', s = (a' ++ sep ++ b')%string -> (String.length a <= String.length a')%nat
  | None => forall a b, s <> (a ++ sep ++ b)%string
  end.
Proof.
  induction s as [| c s IH].
  - cbn [split_once]. destruct (String.prefix sep "") eqn:Ep.
    + split; [rewrite append_nil_l; now apply prefix_rejoins | intros; simpl; lia].
    + intros a b E. destruct a; [| rewrite append_cons in E; discriminate].
      rewrite append_nil_l in E. rewrite E, prefix_app_self in Ep. discriminate.
  - rewrite split_once_unfold. destruct (String.prefix sep (String c s)) eqn:Ep.
    + split; [rewrite append_nil_l; now apply prefix_rejoins | intros; simpl; lia].
    + destruct (split_once sep s) as [[a b] |].
      * destruct IH as [Hs Hmin]. split; [rewrite append_cons; now rewrite <- Hs |].
        intros a' b' E. destruct a' as [| c' a'].
        -- rewrite append_nil_l in E. rewrite E, prefix_app_self in Ep. discriminate.
        -- rewrite append_cons in E. injection E as _ E. simpl. apply le_n_S.
           eapply Hmin; eauto.
      * intros a b E. destruct a as [| c' a].
        -- rewrite append_nil_l in E. rewrite E, prefix_app_self in Ep. discriminate.
        -- rewrite append_cons in E. injection E as _ E. eapply IH; eauto.
Qed.

(** ** Lines of nothing but white space *)

Lemma lstrip_blank line :
  Forall (fun c => is_space c = true) (list_ascii_of_string line) -> lstrip line = "".
Proof.
  induction line as [| c line IH]; intros Hall; [reflexivity |].
  simpl in *. inversion Hall as [| ? ? Hc Hrest]; subst. rewrite Hc. now apply IH.
Qed.

(** A line of [md5sums] that holds only white space, any number of spaces
    included, is stripped to the empty string and stops the extraction with
    the [ValueError] of the failed unpacking, wherever it stands among the
    lines that precede it well-formed or not. *)
Theorem whitespace_line_is_malformed (lines : list string) (line : string)
    (d : list (string * string)) :
  In line lines ->
  Forall (fun c => is_space c = true) (list_ascii_of_string line) ->
  strip line = "" /\
  exists d', load_md5sums lines d = (Raise unpack_error, d').
Proof.
  intros Hin Hall.
  assert (Hs : strip line = "").
  { unfold strip. now rewrite (lstrip_blank line Hall). }
  split; [exact Hs |].
  apply (load_md5sums_malformed lines line Hin). now rewrite Hs.
Qed.

Lemma whitespace_line_is_malformed_witness :
  exists d', load_md5sums ["abc  data/f"; "    "] [] = (Raise unpack_error, d').
Proof.
  apply (whitespace_line_is_malformed ["abc  data/f"; "    "] "    " []).
  - right. left. reflexivity.
  - repeat constructor.
Defined.

(** ** The manifest read from [md5sums] *)

Lemma load_md5sums_app l1 l2 d :
  load_md5sums (l1 ++ l2) d =
  match load_md5sums l1 d with
  | (Ok _, d1) => load_md5sums l2 d1
  | (Raise e, d1) => (Raise e, d1)
  end.
Proof.
  revert d. induction l1 as [| line l1 IH]; intros d; [reflexivity |].
  simpl. destruct (split_once "  " (strip line)) as [[h p] |]; [apply IH | reflexivity].
Qed.

Lemma load_md5sums_other lines p : forall d d',
  load_md5sums lines d = (Ok tt, d') ->
  (forall line h, In line lines -> split_once "  " (strip line) <> Some (h, p)) ->
  assoc p d' = assoc p d.
Proof.
  induction lines as [| line lines IH]; intros d d' Hl Hno.
  - now injection Hl as <-.
  - simpl in Hl. destruct (split_once "  " (strip line)) as [[h q] |] eqn:E;
      [| discriminate].
    rewrite (IH _ _ Hl) by (intros; apply Hno; now right).
    apply assoc_set_ne. intros ->. eapply Hno; [left; reflexivity | exact E].
Qed.

(** When [md5sums] is read without error, the hash recorded for a path is
    the one of the last line that names it: a later line replaces an
    earlier one for the same path. *)
Theorem md5sums_last_line_wins (before after : list string) (line hashsum path : string)
    (d d' : list (string * string)) :
  load_md5sums (before ++ line :: after) d = (Ok tt, d') ->
  split_once "  " (strip line) = Some (hashsum, path) ->
  (forall line' h, In line' after -> split_once "  " (strip line') <> Some (h, path)) ->
  assoc path d' = Some hashsum.
Proof.
  intros Hl Hs Hno. rewrite load_md5sums_app in Hl.
  destruct (load_md5sums before d) as [[[] | e] d1]; [| discriminate].
  simpl in Hl. rewrite Hs in Hl.
  rewrite (load_md5sums_other after path _ _ Hl Hno). apply assoc_set_eq.
Qed.

Lemma md5sums_last_line_wins_witness :
  assoc "data/f" (snd (load_md5sums ["aaa  data/f"; "bbb  data/g"; "ccc  data/f"] []))
    = Some "ccc".
Proof.
  apply (md5sums_last_line_wins ["aaa  data/f"; "bbb  data/g"] [] "ccc  data/f"
           "ccc" "data/f" []).
  - reflexivity.
  - reflexivity.
  - intros line' h [].
Defined.

(** ** Lines of a text file *)

Lemma concat_cons_empty x l :
  String.concat "" (x :: l) = (x ++ String.concat "" l)%string.
Proof.
  destruct l as [| y l]; simpl.
  - clear. induction x as [| a x IH]; [reflexivity |].
    rewrite append_cons. now rewrite <- IH.
  - reflexivity.
Qed.

(** Reading a text without carriage returns line by line loses nothing: the
    lines, put end to end, are the text, and no line is empty. *)
Theorem iter_lines_partition (s : string) :
  Forall (fun c => c <> CR) (list_ascii_of_string s) ->
  String.concat "" (iter_lines s) = s /\
  Forall (fun line => line <> "") (iter_lines s).
Proof.
  induction s as [| c s IH]; intros Hall; [split; [reflexivity | constructor] |].
  simpl in Hall. inversion Hall as [| ? ? Hc Hrest]; subst.
  destruct (IH Hrest) as [Hcat Hne]. cbn [iter_lines].
  destruct (Ascii.eqb_spec c LF) as [-> | Hlf].
  - split; [| constructor; [discriminate | exact Hne]].
    rewrite concat_cons_empty, Hcat. reflexivity.
  - destruct (Ascii.eqb_spec c CR) as [-> | _]; [contradiction |].
    destruct (iter_lines s) as [| l ls] eqn:El.
    + split; [| repeat constructor; discriminate].
      simpl in Hcat. now rewrite <- Hcat.
    + split.
      * rewrite concat_cons_empty, append_cons. rewrite concat_cons_empty in Hcat.
        now rewrite Hcat.
      * inversion Hne; subst. constructor; [discriminate | assumption].
Qed.

Lemma iter_lines_partition_witness :
  String.concat "" (iter_lines (String.append "abc  data/f" (String LF "fff  data/g")))
    = String.append "abc  data/f" (String LF "fff  data/g").
Proof.
  apply iter_lines_partition. vm_compute. repeat constructor; discriminate.
Defined.

(** ** Validation of the command line *)

Section Validation.
Variable path_suffix : path -> string.

Lemma rejection_None root p :
  rejection path_suffix root p = None <-> acceptable path_suffix root p = true.
Proof.
  unfold rejection, acceptable, fs_exists, fs_is_file.
  destruct (fs_get root p) as [[| |] |]; simpl;
    try (split; discriminate);
    (destruct (String.eqb (path_suffix p) ".apg"); simpl; split;
     try reflexivity; discriminate).
Qed.

(** [validate_packages] keeps, in the order given, exactly the paths that
    name a regular file with the suffix [.apg], and logs exactly one warning
    for every path it drops; validating its own result drops nothing. *)
Theorem validate_packages_filters (root : node) (paths : list path) :
  let valid := fst (validate_packages path_suffix root paths) in
  let warnings := snd (validate_packages path_suffix root paths) in
  valid = List.filter (acceptable path_suffix root) paths /\
  (List.length valid + List.length warnings = List.length paths)%nat /\
  (forall p, In p valid <-> In p paths /\ fs_is_file root p = true /\
                            path_suffix p = ".apg") /\
  validate_packages path_suffix root valid = (valid, []).
Proof.
  assert (Hf : fst (validate_packages path_suffix root paths)
               = List.filter (acceptable path_suffix root) paths
               /\ (List.length (fst (validate_packages path_suffix root paths)) +
                   List.length (snd (validate_packages path_suffix root paths))
                   = List.length paths)%nat).
  { induction paths as [| p rest [IH1 IH2]]; [split; reflexivity |].
    cbn [validate_packages List.filter].
    destruct (validate_packages path_suffix root rest) as [valid warnings].
    cbn [fst snd] in *.
    destruct (rejection path_suffix root p) as [warning |] eqn:Er.
    - assert (Ha : acceptable path_suffix root p = false).
      { destruct (acceptable path_suffix root p) eqn:Ea; [| reflexivity].
        apply rejection_None in Ea. congruence. }
      rewrite Ha. cbn [fst snd List.length]. split; [exact IH1 | lia].
    - apply rejection_None in Er. rewrite Er. cbn [fst snd List.length].
      split; [now rewrite IH1 | lia]. }
  destruct Hf as [Hf Hlen]. intros valid warnings. subst valid warnings.
  split; [exact Hf |]. split; [exact Hlen |]. split.
  - intros p. rewrite Hf, List.filter_In. unfold acceptable.
    rewrite andb_true_iff, String.eqb_eq. tauto.
  - rewrite Hf. clear. induction paths as [| p rest IH]; [reflexivity |].
    cbn [List.filter]. destruct (acceptable path_suffix root p) eqn:Ea; [| exact IH].
    cbn [validate_packages]. rewrite IH.
    apply rejection_None in Ea. now rewrite Ea.
Qed.

End Validation.

(** ** Deployment puts the payload in place *)

Lemma fs_mkdir_p_other root p root' q :
  fs_mkdir_p root p = Some root' -> ~ q `prefix_of` p -> fs_get root' q = fs_get root q.
Proof.
  revert root root' q. induction p as [| c p IH]; intros root root' q Hmk Hpre.
  - destruct root; simpl in Hmk; try discriminate. now injection Hmk as <-.
  - destruct q as [| d q]; [exfalso; apply Hpre; apply prefix_nil |].
    destruct root as [t | ms | es]; try discriminate.
    rewrite fs_mkdir_p_cons in Hmk.
    destruct (fs_mkdir_p (default (Dir []) (assoc c es)) p) as [child' |] eqn:E;
      [| discriminate].
    injection Hmk as <-. rewrite !fs_get_cons.
    destruct (String.eqb_spec c d) as [<- | Hne].
    + rewrite assoc_set_eq.
      assert (Hq : ~ q `prefix_of` p).
      { intros [k Hk]. apply Hpre. exists k. simpl. now rewrite Hk. }
      rewrite (IH _ _ q E Hq).
      destruct (assoc c es); simpl; [reflexivity |].
      destruct q; [exfalso; apply Hq; apply prefix_nil | reflexivity].
    + now rewrite assoc_set_ne.
Qed.

(** Writing a regular file where there is no directory changes the lookup
    only at prefixes of the path. *)
Lemma fs_put_file_other root p n root' q :
  fs_put root p n = Some root' -> is_dir n = false ->
  (forall es, fs_get root p <> Some (Dir es)) ->
  ~ q `prefix_of` p -> fs_get root' q = fs_get root q.
Proof.
  intros Hput Hn Hnd Hpre.
  destruct (decide (p `prefix_of` q)) as [[k ->] | Hno].
  - assert (Hk : k <> []).
    { intros ->. apply Hpre. rewrite app_nil_r. reflexivity. }
    rewrite (fs_get_put _ _ _ _ k Hput), fs_get_app.
    rewrite (fs_get_below_file n k Hn Hk).
    destruct (fs_get root p) as [old |] eqn:Eo; [| reflexivity].
    symmetry. apply fs_get_below_file; [| exact Hk].
    destruct old; try reflexivity. exfalso. eapply Hnd. reflexivity.
  - clear Hn Hnd. revert root root' q Hput Hpre Hno.
    induction p as [| c p IH]; intros root root' q Hput Hpre Hno.
    + now rewrite fs_put_root in Hput.
    + destruct q as [| d q]; [exfalso; apply Hpre; apply prefix_nil |].
      destruct root as [t | ms | es]; try (destruct p; discriminate Hput).
      destruct (fs_put_shape _ _ _ _ _ Hput) as (child' & -> & Hshape).
      rewrite !fs_get_cons.
      destruct (String.eqb_spec c d) as [<- | Hne]; [| now rewrite assoc_set_ne].
      rewrite assoc_set_eq. destruct p as [| c' p].
      * exfalso. apply Hno. exists q. reflexivity.
      * destruct Hshape as (child & -> & Hp). eapply IH; eauto.
        -- intros [k Hk]. apply Hpre. exists k. simpl. now rewrite Hk.
        -- intros [k Hk]. apply Hno. exists k. simpl. now rewrite Hk.
Qed.

Lemma removelast_not_whole {A} (l : list A) : l <> [] -> ~ l `prefix_of` List.removelast l.
Proof.
  intros Hl Hp. apply prefix_length in Hp.
  destruct (exists_last Hl) as (l' & a & ->).
  rewrite removelast_last, length_app in Hp. simpl in Hp. lia.
Qed.

Section Deploy.
Variables (r0 : node) (source target : path).
Hypothesis Hapart :
  forall rel, fs_is_file r0 (source ++ rel) = true -> ~ source `prefix_of` (target ++ rel).

(** Two payload files never sit one below the other. *)
Lemma payload_files_apart rel relk :
  fs_is_file r0 (source ++ rel) = true -> fs_is_file r0 (source ++ relk) = true ->
  (target ++ rel) `prefix_of` (target ++ relk) -> rel = relk.
Proof.
  intros Hf Hfk Hp. apply prefix_app_inv in Hp. destruct Hp as [k ->].
  destruct k as [| c k]; [now rewrite app_nil_r |].
  apply is_file_get in Hfk as (n & Hn & _). rewrite app_assoc in Hn.
  apply fs_get_prefix_dir in Hn as [es Hes]; [| discriminate].
  apply is_file_get in Hf as (n' & Hn' & Hd). rewrite Hes in Hn'.
  injection Hn' as <-. discriminate.
Qed.

Lemma step_mkdir root root_a relk :
  stable r0 root source target ->
  fs_is_file r0 (source ++ relk) = true ->
  fs_mkdir_p root (path_parent (target ++ relk)) = Some root_a ->
  stable r0 root_a source target /\
  forall rel, fs_is_file r0 (source ++ rel) = true ->
              deployed r0 root source target rel -> deployed r0 root_a source target rel.
Proof.
  intros [I1 I2] Hfk Hmk.
  assert (Hsrc : forall x, fs_get root_a (source ++ x) = fs_get root (source ++ x)).
  { intros x. apply (fs_mkdir_p_other _ _ _ _ Hmk). intros Hp.
    apply (Hapart relk Hfk). etransitivity; [| apply removelast_prefix].
    etransitivity; [| exact Hp]. now exists x. }
  assert (Htgt : forall rel, fs_is_file r0 (source ++ rel) = true ->
                   fs_get root_a (target ++ rel) = fs_get root (target ++ rel)).
  { intros rel Hf.
    destruct (decide (target ++ relk = [])) as [Hnil | Hnn].
    - unfold path_parent in Hmk. rewrite Hnil in Hmk. simpl in Hmk.
      destruct root; try discriminate. now injection Hmk as <-.
    - apply (fs_mkdir_p_other _ _ _ _ Hmk). intros Hp.
      assert (Hp' : (target ++ rel) `prefix_of` (target ++ relk))
        by (etransitivity; [exact Hp | apply removelast_prefix]).
      rewrite (payload_files_apart rel relk Hf Hfk Hp') in Hp.
      exact (removelast_not_whole _ Hnn Hp). }
  split; [split |].
  - intros x. now rewrite Hsrc.
  - intros rel es Hf. rewrite (Htgt rel Hf). now apply I2.
  - intros rel Hf Hd. unfold deployed in *. now rewrite (Htgt rel Hf).
Qed.

Lemma step_put root_a root1 relk nk :
  stable r0 root_a source target ->
  fs_is_file r0 (source ++ relk) = true ->
  fs_get r0 (source ++ relk) = Some nk ->
  fs_put root_a (target ++ relk) nk = Some root1 ->
  stable r0 root1 source target /\
  deployed r0 root1 source target relk /\
  forall rel, fs_is_file r0 (source ++ rel) = true ->
              deployed r0 root_a source target rel -> deployed r0 root1 source target rel.
Proof.
  intros [I1 I2] Hfk Hnk Hput.
  assert (Hd : is_dir nk = false).
  { apply is_file_get in Hfk as (n & Hn & Hd). congruence. }
  assert (Hother : forall q, ~ q `prefix_of` (target ++ relk) ->
                             fs_get root1 q = fs_get root_a q).
  { intros q Hq. eapply fs_put_file_other; eauto. }
  assert (Hhere : fs_get root1 (target ++ relk) = Some nk).
  { pose proof (fs_get_put _ _ _ _ [] Hput) as Hg. now rewrite app_nil_r in Hg. }
  assert (Htgt : forall rel, fs_is_file r0 (source ++ rel) = true -> rel <> relk ->
                   fs_get root1 (target ++ rel) = fs_get root_a (target ++ rel)).
  { intros rel Hf Hne. apply Hother. intros Hp.
    apply Hne. exact (payload_files_apart rel relk Hf Hfk Hp). }
  split; [split |]; [| | split].
  - intros x. rewrite Hother; [apply I1 |]. intros Hp.
    apply (Hapart relk Hfk). etransitivity; [| exact Hp]. now exists x.
  - intros rel es Hf. destruct (decide (rel = relk)) as [-> | Hne].
    + rewrite Hhere. intros [= ->]. discriminate.
    + rewrite (Htgt rel Hf Hne). now apply I2.
  - unfold deployed. now rewrite Hhere.
  - intros rel Hf Hdep. unfold deployed in *.
    destruct (decide (rel = relk)) as [-> | Hne]; [now rewrite Hhere |].
    now rewrite (Htgt rel Hf Hne).
Qed.

Lemma copy_loop_deploys found : forall w w',
  copy_loop source target found w = (Ok tt, w') ->
  stable r0 (fs w) source target ->
  stable r0 (fs w') source target /\
  forall rel, fs_is_file r0 (source ++ rel) = true ->
              In rel (List.map fst found) \/ deployed r0 (fs w) source target rel ->
              deployed r0 (fs w') source target rel.
Proof.
  induction found as [| [relk n0] rest IH]; intros w w' Hret Hst.
  - injection Hret as <-. split; [exact Hst |]. intros rel _ [[] | Hd]. exact Hd.
  - cbn [copy_loop] in Hret.
    apply bind_Ok in Hret as (root & wg & Hg & Hret). injection Hg as <- <-.
    apply bind_Ok in Hret as ([] & w1 & Hstep & Hrest).
    assert (Hone : stable r0 (fs w1) source target /\
                   forall rel, fs_is_file r0 (source ++ rel) = true ->
                               rel = relk \/ deployed r0 (fs w) source target rel ->
                               deployed r0 (fs w1) source target rel).
    { destruct Hst as [I1 I2].
      destruct (fs_is_file (fs w) (source ++ relk)) eqn:Ef.
      - assert (Hfk : fs_is_file r0 (source ++ relk) = true).
        { unfold fs_is_file in *. now rewrite <- I1. }
        apply bind_Ok in Hstep as ([] & wa & Hmk & Hcp).
        unfold make_dirs in Hmk.
        destruct (fs_mkdir_p (fs w) (path_parent (target ++ relk))) as [root_a |] eqn:Em;
          [| discriminate].
        injection Hmk as <-.
        destruct (step_mkdir _ _ _ (conj I1 I2) Hfk Em) as [[I1a I2a] Hda].
        apply is_file_get in Hfk as Hnk. destruct Hnk as (nk & Hnk & Hdk).
        unfold copy2 in Hcp. cbn [fs] in Hcp. rewrite I1a, Hnk in Hcp.
        assert (Hput : fs_put root_a (target ++ relk) nk = Some (fs w1)).
        { destruct nk as [t | ms | es]; try discriminate Hdk;
            (destruct (fs_get root_a (target ++ relk)) as [[| |] |] eqn:Eg;
             [ | | exfalso; eapply I2a; eauto; now apply is_file_get; eauto | ];
             unfold write_file, write_node in Hcp; cbn [fs] in Hcp; rewrite ?Eg in Hcp;
             destruct (fs_put root_a (target ++ relk) _) as [r1 |]; try discriminate Hcp;
             now injection Hcp as <-). }
        assert (Hfk' : fs_is_file r0 (source ++ relk) = true)
          by (apply is_file_get; eauto).
        destruct (step_put _ _ _ _ (conj I1a I2a) Hfk' Hnk Hput) as (Hst1 & Hdk1 & Hd1).
        split; [exact Hst1 |]. intros rel Hf [-> | Hd]; [exact Hdk1 |].
        apply Hd1; [exact Hf |]. now apply Hda.
      - injection Hstep as <-. split; [now split |].
        intros rel Hf [-> | Hd]; [| exact Hd].
        exfalso. unfold fs_is_file in *. rewrite I1 in Ef. congruence. }
    destruct Hone as [Hst1 Hd1].
    destruct (IH _ _ Hrest Hst1) as [Hst' Hd']. split; [exact Hst' |].
    intros rel Hf [Hin | Hd].
    + cbn [List.map fst] in Hin. destruct Hin as [<- | Hin].
      * apply Hd'; [exact Hf |]. right. apply Hd1; auto.
      * apply Hd'; auto.
    + apply Hd'; [exact Hf |]. right. apply Hd1; auto.
Qed.

End Deploy.

Section Deployment.

(** When [copy_files] returns, every regular file below the source
    directory is found under the same relative path below the target, with
    the content it has in the source, provided that no payload file lands
    inside the source directory itself and none meets a directory at its
    place below the target. *)
Theorem copy_files_deploys (source_dir target_dir : path) (src : node) (w w' : world) :
  fs_get (fs w) source_dir = Some src ->
  copy_files source_dir target_dir w = (Ok tt, w') ->
  (forall rel, fs_is_file (fs w) (source_dir ++ rel) = true ->
               ~ source_dir `prefix_of` (target_dir ++ rel)) ->
  (forall rel es, fs_is_file (fs w) (source_dir ++ rel) = true ->
                  fs_get (fs w) (target_dir ++ rel) <> Some (Dir es)) ->
  forall rel n,
    rel <> [] -> fs_get (fs w) (source_dir ++ rel) = Some n -> is_dir n = false ->
    fs_get (fs w') (target_dir ++ rel) = Some n.
Proof.
  intros Hsrc Hret Hapart Hnodir rel n Hne Hn Hd.
  unfold copy_files in Hret.
  apply bind_Ok in Hret as (root & wg & Hg & Hret). injection Hg as <- <-.
  rewrite Hsrc in Hret.
  apply bind_Ok in Hret as ([] & wl & Hl & Hloop). injection Hl as <-.
  assert (Hst : stable (fs w) (fs w) source_dir target_dir) by (split; auto).
  destruct (copy_loop_deploys (fs w) source_dir target_dir Hapart (rglob src) _ _ Hloop Hst)
    as [_ Hdep].
  rewrite <- Hn. apply Hdep.
  - apply is_file_get. eauto.
  - left. apply in_map_iff. exists (rel, n). split; [reflexivity |].
    apply rglob_lists; [exact Hne |]. rewrite fs_get_app, Hsrc in Hn. exact Hn.
Qed.

End Deployment.

Lemma copy_files_deploys_witness :
  fs_get (fs (snd (copy_files ["tmp"; "apginstall-0"; "data"] system_root
                     Demo.demo_world)))
         (system_root ++ ["etc"; "demo.conf"]) = Some (File "x=1").
Proof.
  eapply (copy_files_deploys ["tmp"; "apginstall-0"; "data"] system_root
            (Dir [("etc", Dir [("demo.conf", File "x=1")])]) Demo.demo_world).
  - reflexivity.
  - vm_compute. reflexivity.
  - intros rel Hf [k Hk]. simpl in Hk. subst rel.
    vm_compute in Hf. discriminate.
  - intros rel es Hf. unfold fs_is_file in Hf.
    rewrite (fs_get_app _ ["tmp"; "apginstall-0"; "data"] rel) in Hf.
    change (fs_get (fs Demo.demo_world) ["tmp"; "apginstall-0"; "data"])
      with (Some (Dir [("etc", Dir [("demo.conf", File "x=1")])])) in Hf.
    destruct rel as [| c rel]; [discriminate |].
    rewrite fs_get_cons in Hf. cbn [assoc] in Hf.
    destruct (String.eqb_spec c "etc") as [-> | _]; [| discriminate].
    destruct rel as [| c' rel]; [discriminate |].
    rewrite fs_get_cons in Hf. cbn [assoc] in Hf.
    destruct (String.eqb_spec c' "demo.conf") as [-> | _]; [| discriminate].
    destruct rel; [| discriminate]. vm_compute. discriminate.
  - discriminate.
  - reflexivity.
  - reflexivity.
Defined.

(** ** What one package never does *)

Section OnePackage.
Context `{Platform}.

(** Installing one package only emits percentages and log lines (and starts
    scripts): it never sends a batch signal and never writes a failure
    record; those are left to [run]. *)
Theorem install_package_sends_no_batch_signal (p : path) (w : world) :
  Forall installer_event (emitted_by (install_package p) w) /\
  batch_signals (emitted_by (install_package p) w) = [] /\
  failure_details (emitted_by (install_package p) w) = [].
Proof.
  destruct (install_package p w) as [r w'] eqn:E.
  destruct (traces_install_package p _ _ _ E) as (new & Ev & F & _).
  rewrite (emitted_by_app (install_package p) w new) by now rewrite E.
  destruct (installer_events_quiet new F) as [Hd Hs]. auto.
Qed.

Lemma run_script_contract_parts script_path env w :
  fs_exists (fs w) script_path = true ->
  emitted_by (run_script script_path env) w =
    [log_message ("Running " ++ path_name script_path ++ "...");
     subprocess_run [path_str script_path]
       (<["PACKAGE_ROOT" := path_str (path_parent (path_parent script_path))]>
          (os_environ ∪ default ∅ env))] /\
  (<["PACKAGE_ROOT" := path_str (path_parent (path_parent script_path))]>
     (os_environ ∪ default ∅ env)) !! "PACKAGE_ROOT"
    = Some (path_str (path_parent (path_parent script_path))).
Proof.
  intros Hex. split; [| apply lookup_insert_eq].
  apply emitted_by_app. unfold run_script. rewrite Hex. cbn [negb].
  destruct (run_process _ _ _) as [code err root | e]; [| reflexivity].
  now destruct (code =? 0)%Z.
Qed.

Lemma removelast_two {A} (l : list A) a b :
  List.removelast (List.removelast (l ++ [a; b])) = l.
Proof.
  change (l ++ [a; b]) with (l ++ [a] ++ [b]). rewrite app_assoc.
  now rewrite !removelast_last.
Qed.

(** A lifecycle script of the workspace [tmp] is started with [PACKAGE_ROOT]
    set to the workspace, whatever value the inherited environment or the
    caller gave that variable. *)
Theorem script_sees_the_workspace_as_root (tmp : path) (name : string)
    (env : option (gmap string string)) (w : world) :
  fs_exists (fs w) (tmp ++ ["scripts"; name]) = true ->
  exists child_env,
    emitted_by (run_script (tmp ++ ["scripts"; name]) env) w =
      [log_message ("Running " ++ name ++ "...");
       subprocess_run [path_str (tmp ++ ["scripts"; name])] child_env] /\
    child_env !! "PACKAGE_ROOT" = Some (path_str tmp).
Proof.
  intros Hex.
  destruct (run_script_contract_parts (tmp ++ ["scripts"; name]) env w Hex) as [Hev Hroot].
  assert (Hp : path_parent (path_parent (tmp ++ ["scripts"; name])) = tmp)
    by apply removelast_two.
  assert (Hn : path_name (tmp ++ ["scripts"; name]) = name).
  { unfold path_name. change (tmp ++ ["scripts"; name]) with (tmp ++ ["scripts"] ++ [name]).
    now rewrite app_assoc, last_last. }
  rewrite Hp, Hn in Hev. rewrite Hp in Hroot. eauto.
Qed.

End OnePackage.

Lemma script_sees_the_workspace_as_root_witness :
  exists child_env,
    emitted_by (@run_script Demo.platform
                  (["tmp"; "apginstall-0"] ++ ["scripts"; "postinstall"]) None)
               Demo.staged_world =
      [log_message "Running postinstall...";
       subprocess_run [path_str (["tmp"; "apginstall-0"] ++ ["scripts"; "postinstall"])]
                      child_env] /\
    child_env !! "PACKAGE_ROOT" = Some "/tmp/apginstall-0".
Proof.
  apply (@script_sees_the_workspace_as_root Demo.platform ["tmp"; "apginstall-0"]
           "postinstall" None Demo.staged_world).
  vm_compute. reflexivity.
Defined.
